(** * smart_commit: a commit-message suggester over the staged files

    A shallow embedding of [smart_commit.py] and the properties of its four
    stages: the staged-file lister, the type classifier, the message composer
    and the interactive confirmer with the committer.

    Text.  A Python [str] is a Rocq [string]; a character stands for the code
    point of the same number (the range below 256, which contains ASCII), and
    [lower] and [isspace] follow Python's tables on that range.  The notices
    that start with an emoji keep the bytes of the source literal: the program
    only prints them.

    Effects.  The program talks to three things: the processes it starts
    ([subprocess.run]), standard input ([input]) and standard output
    ([print]).  The processes are a parameter [os_run] of the model, standard
    input is the list of the lines still to be read, and everything the
    program does to the outside is appended to a trace of events.  Python
    exceptions are the [inr] side of [result]. *)

From Stdlib Require Import String Ascii List Bool Arith ZArith Lia DecimalString Permutation.
Import ListNotations.

Local Open Scope list_scope.
Local Open Scope string_scope.

(** ** Python's [str] operations *)

Module Str.

(** The line feed, Python's ["\n"]. *)
Definition nl_char : ascii := "010"%char.
Definition nl : string := String nl_char EmptyString.

Definition is_empty (s : string) : bool :=
  match s with EmptyString => true | String _ _ => false end.

(** [bool(s)]: a string is true when it is not empty. *)
Definition truthy (s : string) : bool := negb (is_empty s).

(** [s.startswith(p)]. *)
Definition startswith (s p : string) : bool := String.prefix p s.

(** [s.endswith(suf)]: [s] is [suf], or what follows its first character
    ends with [suf]. *)
Fixpoint endswith (s suf : string) : bool :=
  (s =? suf) ||
  match s with
  | EmptyString => false
  | String _ s' => endswith s' suf
  end.

(** [sub in s]. *)
Fixpoint contains (sub s : string) : bool :=
  String.prefix sub s ||
  match s with
  | EmptyString => false
  | String _ s' => contains sub s'
  end.

(** [str.lower] on one code point below 256: A-Z, and the Latin-1 capitals
    U+00C0-U+00DE without the multiplication sign U+00D7, move up by 32. *)
Definition lower_char (c : ascii) : ascii :=
  let n := nat_of_ascii c in
  if (((65 <=? n) && (n <=? 90)) || ((192 <=? n) && (n <=? 222) && negb (n =? 215)))%nat
  then ascii_of_nat (n + 32)
  else c.

Fixpoint lower (s : string) : string :=
  match s with
  | EmptyString => EmptyString
  | String c s' => String (lower_char c) (lower s')
  end.

(** [str.isspace] on one code point below 256. *)
Definition isspace (c : ascii) : bool :=
  let n := nat_of_ascii c in
  (((9 <=? n) && (n <=? 13)) || ((28 <=? n) && (n <=? 32)) || (n =? 133) || (n =? 160))%nat.

Fixpoint lstrip (s : string) : string :=
  match s with
  | EmptyString => EmptyString
  | String c s' => if isspace c then lstrip s' else s
  end.

Fixpoint rstrip (s : string) : string :=
  match s with
  | EmptyString => EmptyString
  | String c s' =>
      let r := rstrip s' in
      if is_empty r && isspace c then EmptyString else String c r
  end.

(** [s.strip()]. *)
Definition strip (s : string) : string := rstrip (lstrip s).

(** [s.split("\n")]: never the empty list. *)
Fixpoint split_nl (s : string) : list string :=
  match s with
  | EmptyString => [EmptyString]
  | String c s' =>
      if Ascii.eqb c nl_char then EmptyString :: split_nl s'
      else match split_nl s' with
           | h :: t => String c h :: t
           | [] => [String c EmptyString]
           end
  end.

(** [s.split("\n", 1)]: at most one cut, at the first line feed. *)
Fixpoint split_nl_once (s : string) : list string :=
  match s with
  | EmptyString => [EmptyString]
  | String c s' =>
      if Ascii.eqb c nl_char then [EmptyString; s']
      else match split_nl_once s' with
           | h :: t => String c h :: t
           | [] => [String c EmptyString]
           end
  end.

(** [sep.join(l)]. *)
Definition join (sep : string) (l : list string) : string := String.concat sep l.

(** [c * n] for a one-character string. *)
Fixpoint times (c : ascii) (n : nat) : string :=
  match n with
  | O => EmptyString
  | S n' => String c (times c n')
  end.

(** [str(n)] for a length. *)
Definition of_nat (n : nat) : string := NilZero.string_of_uint (Nat.to_uint n).

(** [s.rfind(c)] for a one-character [c]: the last index of [c], or -1.
    [rfind_from] numbers the characters of [s] from [i]. *)
Fixpoint rfind_from (c : ascii) (s : string) (i : Z) : Z :=
  match s with
  | EmptyString => (-1)%Z
  | String a s' =>
      let r := rfind_from c s' (i + 1)%Z in
      if (0 <=? r)%Z then r else if Ascii.eqb a c then i else (-1)%Z
  end.

Definition rfind (c : ascii) (s : string) : Z := rfind_from c s 0%Z.

(** The slices [s[i:]] and [s[:i]] for an index [0 <= i]. *)
Fixpoint slice_from (i : nat) (s : string) : string :=
  match i, s with
  | O, _ => s
  | S _, EmptyString => EmptyString
  | S i', String _ s' => slice_from i' s'
  end.

Fixpoint slice_to (i : nat) (s : string) : string :=
  match i, s with
  | O, _ => EmptyString
  | S _, EmptyString => EmptyString
  | S i', String c s' => String c (slice_to i' s')
  end.

End Str.

(** ** [os.path] (the POSIX flavour) *)

Module OsPath.

Definition sep : ascii := "/"%char.
Definition extsep : ascii := "."%char.

(** [posixpath.basename]: [i = p.rfind('/') + 1; return p[i:]]. *)
Definition basename (p : string) : string :=
  let i := (Str.rfind sep p + 1)%Z in
  Str.slice_from (Z.to_nat i) p.

(** The loop of [genericpath._splitext]: from [filenameIndex], for [n] more
    positions below [dotIndex], look for a character that is not a dot. *)
Fixpoint has_non_dot (p : string) (filenameIndex n : nat) : bool :=
  match n with
  | O => false
  | S n' =>
      match String.get filenameIndex p with
      | Some c => if Ascii.eqb c extsep then has_non_dot p (S filenameIndex) n' else true
      | None => true
      end
  end.

(** [posixpath.splitext]: the extension starts at the last dot of the last
    component, unless only dots precede it there. *)
Definition splitext (p : string) : string * string :=
  let sepIndex := Str.rfind sep p in
  let dotIndex := Str.rfind extsep p in
  if (sepIndex <? dotIndex)%Z
  then
    let filenameIndex := Z.to_nat (sepIndex + 1) in
    if has_non_dot p filenameIndex (Z.to_nat dotIndex - filenameIndex)
    then (Str.slice_to (Z.to_nat dotIndex) p, Str.slice_from (Z.to_nat dotIndex) p)
    else (p, EmptyString)
  else (p, EmptyString).

End OsPath.

(** ** Exceptions, results and name lookup *)

Inductive exn : Type :=
| NameError (name : string)
| AttributeError (attr : string)
| FileNotFoundError
| EOFError
| SystemExit (code : Z).

(** What a call gives: a value, or the exception it raised. *)
Definition result (A : Type) : Type := (A + exn)%type.

(** The exit status of the process when [main()] ends with [r]: [sys.exit(n)]
    gives [n], any other uncaught exception 1, a normal return 0. *)
Definition exit_status {A : Type} (r : result A) : Z :=
  match r with
  | inl _ => 0%Z
  | inr (SystemExit n) => n
  | inr _ => 1%Z
  end.

(** The values a name of the module can hold. *)
Inductive value : Type :=
| VStr (s : string)
| VList (l : list string)
| VObject.

Definition namespace : Type := list (string * value).

Fixpoint lookup (ns : namespace) (x : string) : option value :=
  match ns with
  | [] => None
  | (y, v) :: ns' => if y =? x then Some v else lookup ns' x
  end.

(** [LOAD_NAME]: the innermost scope first; a name bound nowhere raises. *)
Definition load_name (ns : namespace) (x : string) : result value :=
  match lookup ns x with
  | Some v => inl v
  | None => inr (NameError x)
  end.

(** The names bound at module level: three imports and six functions. *)
Definition module_globals : namespace :=
  [ ("subprocess", VObject); ("sys", VObject); ("os", VObject);
    ("get_staged_files", VObject); ("detect_commit_type", VObject);
    ("generate_summary", VObject); ("generate_body", VObject);
    ("confirm_message", VObject); ("run_commit", VObject); ("main", VObject) ].

(** [v.endswith(ext)]: a method of [str] only. *)
Definition value_endswith (v : value) (ext : string) : result bool :=
  match v with
  | VStr s => inl (Str.endswith s ext)
  | _ => inr (AttributeError "endswith")
  end.

(** [any(p(x) for x in l)]: stops at the first true element, and at the first
    exception. *)
Fixpoint any_r {A : Type} (p : A -> result bool) (l : list A) : result bool :=
  match l with
  | [] => inl false
  | x :: l' =>
      match p x with
      | inl true => inl true
      | inl false => any_r p l'
      | inr e => inr e
      end
  end.

(** ** The type classifier: [detect_commit_type] *)

Definition is_doc (f : string) : bool := Str.endswith f ".md".

Definition has_test_token (f : string) : bool :=
  Str.contains "test" (Str.lower f) || Str.startswith f "tests".

Definition source_exts : list string := [".py"; ".js"; ".ts"; ".cpp"; ".h"].

Definition manifest_names : list string :=
  ["package.json"; "package-lock.json"; "pyproject.toml"].

(** The scope of the generators of rules 3 and 4, [(f.endswith(ext) for ext in
    [...])]: the loop variable [ext], then the locals of the function (its
    argument [files]; the [f] of the first two generators is local to
    them), then the module.  No [f] is bound in any of them. *)
Definition ext_scope (files : list string) (ext : string) : namespace :=
  ("ext", VStr ext) :: ("files", VList files) :: module_globals.

Definition f_endswith (files : list string) (ext : string) : result bool :=
  match load_name (ext_scope files ext) "f" with
  | inl f => value_endswith f ext
  | inr e => inr e
  end.

Definition detect_commit_type (files : list string) : result string :=
  if forallb is_doc files then inl "docs"
  else if existsb has_test_token files then inl "test"
  else
    match any_r (f_endswith files) source_exts with
    | inr e => inr e
    | inl true => inl "feat"
    | inl false =>
        match any_r (f_endswith files) manifest_names with
        | inr e => inr e
        | inl true => inl "chore"
        | inl false => inl "chore"
        end
    end.

(** The classifier in the words of its description: three rules and a
    default, each rule over the staged files. *)
Definition classify_simplified (files : list string) : string :=
  if forallb is_doc files then "docs"
  else if existsb (fun f => Str.contains "test" (Str.lower f)) files then "test"
  else if existsb (fun f => existsb (Str.endswith f) source_exts) files then "feat"
  else "chore".

(** ** The message composer: [generate_summary] and [generate_body] *)

Definition generate_summary (commit_type : string) (files : list string) : string :=
  if (List.length files =? 1)%nat then
    let filename := OsPath.basename (nth 0 files "") in
    let name_without_ext := fst (OsPath.splitext filename) in
    commit_type ++ "(" ++ name_without_ext ++ "): update " ++ filename
  else commit_type ++ ": update " ++ Str.of_nat (List.length files) ++ " files".

Definition generate_body (files : list string) : string :=
  Str.join Str.nl (map (fun f => "- Modified: " ++ f) files).

(** ** The outside world *)

(** What the program does to the outside, in order: a process it asks the
    system to run, a line it prints, a prompt it writes before reading. *)
Inductive event : Type :=
| Exec (argv : list string)
| Print (line : string)
| Prompt (text : string).

(** The lines standard input still holds (then it is at its end), and the
    events so far. *)
Record world : Type := World { stdin : list string; trace : list event }.

(** What [subprocess.run] hands back; the captured standard error is never
    read by the program and is left out. *)
Record completed : Type := Completed { returncode : Z; stdout : string }.

Definition IO (A : Type) : Type := world -> result A * world.

Definition ret {A : Type} (a : A) : IO A := fun w => (inl a, w).

Definition raise {A : Type} (e : exn) : IO A := fun w => (inr e, w).

Definition bind {A B : Type} (m : IO A) (k : A -> IO B) : IO B :=
  fun w =>
    match m w with
    | (inl a, w') => k a w'
    | (inr e, w') => (inr e, w')
    end.

Definition lift {A : Type} (r : result A) : IO A := fun w => (r, w).

Notation "x <- m ;; k" := (bind m (fun x => k))
  (at level 61, m at next level, right associativity).
Notation "m ;;; k" := (bind m (fun _ => k))
  (at level 61, right associativity).

Definition emit (e : event) : IO unit :=
  fun w => (inl tt, World (stdin w) (trace w ++ [e])).

Definition print (line : string) : IO unit := emit (Print line).

(** [input(prompt)]: the prompt is written, then one line is read, without
    its line feed; at the end of the input [EOFError]. *)
Definition input (prompt : string) : IO string :=
  emit (Prompt prompt) ;;;
  fun w =>
    match stdin w with
    | [] => (inr EOFError, w)
    | line :: rest => (inl line, World rest (trace w))
    end.

Definition sys_exit {A : Type} (code : Z) : IO A := raise (SystemExit code).

(** The commands of the trace. *)
Fixpoint execs (tr : list event) : list (list string) :=
  match tr with
  | [] => []
  | Exec argv :: tr' => argv :: execs tr'
  | _ :: tr' => execs tr'
  end.

(** The loop of the edit branch, [while True: line = input(); if not line:
    break; lines.append(line)], as a function of the lines standard input
    holds: the lines collected and the input left, or [EOFError] when the
    input ends before an empty line.  [input()] without a prompt writes
    nothing. *)
Fixpoint collect_lines (pending lines : list string) : result (list string) * list string :=
  match pending with
  | [] => (inr EOFError, [])
  | line :: rest =>
      if Str.truthy line then collect_lines rest (lines ++ [line])
      else (inl lines, rest)
  end.

Definition read_custom_message : IO (list string) :=
  fun w =>
    let (r, rest) := collect_lines (stdin w) [] in
    (r, World rest (trace w)).

Definition notice_canceled : string := "❌ Commit canceled.".
Definition notice_created : string := "✅ Commit created successfully.".
Definition notice_failed : string := "❌ Git commit failed.".
Definition notice_nothing_staged : string :=
  "⚠️ No staged changes found. Use 'git add' first.".

Definition git_diff_argv : list string := ["git"; "diff"; "--cached"; "--name-only"].

(** ** The program *)

Section Program.

(** The system's answer to [subprocess.run(argv)]: [None] when the program
    cannot be started (no such binary), else the completed process. *)
Variable os_run : list string -> option completed.

Definition subprocess_run (argv : list string) : IO completed :=
  emit (Exec argv) ;;;
  match os_run argv with
  | Some c => ret c
  | None => raise FileNotFoundError
  end.

Definition get_staged_files : IO (list string) :=
  result <- subprocess_run git_diff_argv ;;
  let files := Str.split_nl (Str.strip (stdout result)) in
  ret (filter Str.truthy files).

Definition confirm_message (title body : string) : IO (string * string) :=
  print (Str.nl ++ "Suggested commit message:") ;;;
  print (Str.times "-" 40) ;;;
  print title ;;;
  print "" ;;;
  print body ;;;
  print (Str.times "-" 40) ;;;
  answer <- input "Proceed with this commit? [Y/n/edit]: " ;;
  let choice := Str.lower (Str.strip answer) in
  if existsb (String.eqb choice) [""; "y"; "yes"] then ret (title, body)
  else if choice =? "edit" then
    print (Str.nl ++ "Enter your custom commit message (end with an empty line):") ;;;
    lines <- read_custom_message ;;
    let full_message := Str.join Str.nl lines in
    let parts := Str.split_nl_once full_message in
    let title := nth 0 parts "" in
    let body := if (1 <? List.length parts)%nat then nth 1 parts "" else "" in
    ret (title, body)
  else
    print notice_canceled ;;;
    sys_exit 0.

Definition run_commit (title body : string) : IO unit :=
  let cmd := ["git"; "commit"; "-m"; title] in
  let cmd := if Str.truthy (Str.strip body) then (cmd ++ ["-m"; body])%list else cmd in
  result <- subprocess_run cmd ;;
  if (returncode result =? 0)%Z then print notice_created
  else print notice_failed.

Definition main : IO unit :=
  files <- get_staged_files ;;
  if negb (0 <? List.length files)%nat then
    print notice_nothing_staged ;;;
    sys_exit 1
  else
    commit_type <- lift (detect_commit_type files) ;;
    let title := generate_summary commit_type files in
    let body := generate_body files in
    message <- confirm_message title body ;;
    let (title, body) := message in
    run_commit title body.

(** [main] with the stages after the lister left open. *)
Section Stages.

Variable classify : list string -> result string.
Variable summarize : string -> list string -> string.
Variable describe : list string -> string.
Variable confirm : string -> string -> IO (string * string).
Variable commit : string -> string -> IO unit.

Definition main_with : IO unit :=
  files <- get_staged_files ;;
  if negb (0 <? List.length files)%nat then
    print notice_nothing_staged ;;;
    sys_exit 1
  else
    commit_type <- lift (classify files) ;;
    let title := summarize commit_type files in
    let body := describe files in
    message <- confirm title body ;;
    let (title, body) := message in
    commit title body.

End Stages.

End Program.

(** A system on which every command completes with [c]. *)
Definition any_run (c : completed) (argv : list string) : option completed := Some c.

(** ** What the paths of a staged set look like, in the words of the rules *)

(** [f] ends in the documentation extension. *)
Definition doc_path (f : string) : Prop := exists stem, f = stem ++ ".md".

(** [f] holds the token [test] in any mix of cases, or begins with the
    tests-directory prefix. *)
Definition test_token_in (f : string) : Prop :=
  (exists pre tok post, f = pre ++ tok ++ post /\ Str.lower tok = "test")
  \/ (exists rest, f = "tests" ++ rest).

(** ** Words for the statements about the run of the program *)

(** The staged set the lister reads off a completed list operation. *)
Definition staged_of (c : completed) : list string :=
  filter Str.truthy (Str.split_nl (Str.strip (stdout c))).

(** The answer at the confirm prompt as the program compares it. *)
Definition choice_of (answer : string) : string := Str.lower (Str.strip answer).

(** What the confirmer shows before it reads the answer. *)
Definition presentation (title body : string) : list event :=
  [ Print (Str.nl ++ "Suggested commit message:");
    Print (Str.times "-" 40);
    Print title;
    Print "";
    Print body;
    Print (Str.times "-" 40);
    Prompt "Proceed with this commit? [Y/n/edit]: " ].

Definition edit_invitation : event :=
  Print (Str.nl ++ "Enter your custom commit message (end with an empty line):").

(** The list operation could not be carried out: the binary could not be
    started, or it ran and failed (as outside a repository). *)
Definition list_operation_failed (o : option completed) : Prop :=
  match o with
  | None => True
  | Some c => returncode c <> 0%Z
  end.

(** ** Lemmas on the [str] operations *)

Lemma append_empty_r (s : string) : s ++ "" = s.
Proof. induction s as [|c s IH]; simpl; [reflexivity | now rewrite IH]. Qed.

Lemma append_assoc (a b c : string) : (a ++ b) ++ c = a ++ b ++ c.
Proof. induction a as [|x a IH]; simpl; [reflexivity | now rewrite IH]. Qed.

Lemma prefix_iff (p s : string) :
  String.prefix p s = true <-> exists post, s = p ++ post.
Proof.
  revert s; induction p as [|a p IH]; intros s; simpl.
  - destruct s; simpl; split; eauto.
  - destruct s as [|b s]; simpl.
    + split; [discriminate | intros [post H]; discriminate].
    + destruct (ascii_dec a b) as [->|Hab].
      * rewrite IH. split; intros [post H]; exists post.
        -- now rewrite H.
        -- now inversion H.
      * split; [discriminate | intros [post H]; congruence].
Qed.

Lemma endswith_empty (suf : string) : Str.endswith "" suf = ("" =? suf).
Proof. unfold Str.endswith. apply orb_false_r. Qed.

Lemma endswith_cons (c : ascii) (s suf : string) :
  Str.endswith (String c s) suf = (String c s =? suf) || Str.endswith s suf.
Proof. reflexivity. Qed.

Lemma endswith_iff (s suf : string) :
  Str.endswith s suf = true <-> exists stem, s = stem ++ suf.
Proof.
  induction s as [|c s IH].
  - rewrite endswith_empty, String.eqb_eq. split.
    + intros <-. now exists "".
    + intros [stem H]. destruct stem; simpl in H; [assumption | discriminate].
  - rewrite endswith_cons, orb_true_iff, String.eqb_eq, IH. split.
    + intros [<- | [stem ->]]; [now exists "" | now exists (String c stem)].
    + intros [stem H]. destruct stem as [|d stem]; simpl in H.
      * now left.
      * right. exists stem. now inversion H.
Qed.

Lemma contains_empty (sub : string) : Str.contains sub "" = String.prefix sub "".
Proof. unfold Str.contains. apply orb_false_r. Qed.

Lemma contains_cons (sub : string) (c : ascii) (s : string) :
  Str.contains sub (String c s) = String.prefix sub (String c s) || Str.contains sub s.
Proof. reflexivity. Qed.

Lemma contains_iff (sub s : string) :
  Str.contains sub s = true <-> exists pre post, s = pre ++ sub ++ post.
Proof.
  induction s as [|c s IH].
  - rewrite contains_empty, prefix_iff. split.
    + intros [post H]. now exists "", post.
    + intros [pre [post H]]. destruct pre; simpl in H; [now exists post | discriminate].
  - rewrite contains_cons, orb_true_iff, prefix_iff, IH. split.
    + intros [[post H] | [pre [post ->]]].
      * now exists "", post.
      * now exists (String c pre), post.
    + intros [pre [post H]]. destruct pre as [|d pre]; simpl in H.
      * left. now exists post.
      * right. exists pre, post. now inversion H.
Qed.

Lemma lower_app (a b : string) : Str.lower (a ++ b) = Str.lower a ++ Str.lower b.
Proof. induction a as [|c a IH]; simpl; [reflexivity | now rewrite IH]. Qed.

(** A path that begins with [tests] holds the token [test]: the second
    disjunct of rule 2 never decides. *)
Lemma startswith_tests_contains_test (f : string) :
  Str.startswith f "tests" = true -> Str.contains "test" (Str.lower f) = true.
Proof.
  unfold Str.startswith. rewrite prefix_iff, contains_iff.
  intros [rest ->]. exists "", ("s" ++ Str.lower rest).
  rewrite lower_app. reflexivity.
Qed.

Lemma has_test_token_iff (f : string) :
  has_test_token f = Str.contains "test" (Str.lower f).
Proof.
  unfold has_test_token.
  destruct (Str.startswith f "tests") eqn:E; [| now rewrite orb_false_r].
  rewrite (startswith_tests_contains_test f E). reflexivity.
Qed.

Lemma test_token_in_sound (f : string) : test_token_in f -> has_test_token f = true.
Proof.
  unfold has_test_token. intros [[pre [tok [post [-> Htok]]]] | [rest ->]]; apply orb_true_iff.
  - left. apply contains_iff. exists (Str.lower pre), (Str.lower post).
    now rewrite !lower_app, Htok.
  - right. apply prefix_iff. now exists rest.
Qed.

Lemma forallb_is_doc (files : list string) :
  forallb is_doc files = true <-> (forall f, In f files -> doc_path f).
Proof.
  rewrite forallb_forall. unfold is_doc, doc_path.
  split; intros H f Hf; apply endswith_iff, H, Hf.
Qed.

(** ** Lemmas on the classifier *)

Lemma existsb_pointwise {A : Type} (p q : A -> bool) (l : list A) :
  (forall x, p x = q x) -> existsb p l = existsb q l.
Proof. intros H. induction l as [|x l IH]; simpl; [reflexivity | now rewrite H, IH]. Qed.

(** The generators of rules 3 and 4 raise at their first element, whatever
    the staged files are. *)
Lemma f_endswith_raises (files : list string) (ext : string) :
  f_endswith files ext = inr (NameError "f").
Proof. reflexivity. Qed.

Lemma any_r_f_endswith (files exts : list string) :
  exts <> [] -> any_r (f_endswith files) exts = inr (NameError "f").
Proof. destruct exts as [|e exts]; [congruence | reflexivity]. Qed.

(** The three outcomes of [detect_commit_type]. *)
Lemma detect_commit_type_cases (files : list string) :
  detect_commit_type files =
  if forallb is_doc files then inl "docs"
  else if existsb has_test_token files then inl "test"
  else inr (NameError "f").
Proof.
  unfold detect_commit_type.
  destruct (forallb is_doc files); [reflexivity |].
  destruct (existsb has_test_token files); reflexivity.
Qed.

(** Where the classifier returns, it returns what the three-rule classifier
    returns. *)
Lemma detect_commit_type_simplified (files : list string) (label : string) :
  detect_commit_type files = inl label -> classify_simplified files = label.
Proof.
  rewrite detect_commit_type_cases. unfold classify_simplified.
  destruct (forallb is_doc files); [congruence |].
  rewrite (existsb_pointwise _ _ files has_test_token_iff).
  destruct (existsb _ files); [congruence | discriminate].
Qed.

(** ** Lemmas on [os.path] *)

Lemma single_char_prefix (c a : ascii) (s : string) :
  String.prefix (String c "") (String a s) = Ascii.eqb a c.
Proof.
  cbn [String.prefix]. destruct (ascii_dec c a) as [->|Hne].
  - rewrite Ascii.eqb_refl. now destruct s.
  - symmetry. apply Ascii.eqb_neq. congruence.
Qed.

Lemma rfind_from_absent (c : ascii) (s : string) (i : Z) :
  Str.contains (String c "") s = false -> Str.rfind_from c s i = (-1)%Z.
Proof.
  revert i. induction s as [|a s IH]; intros i; [reflexivity |].
  rewrite contains_cons, single_char_prefix, orb_false_iff. intros [Ha Hs].
  cbn [Str.rfind_from]. now rewrite (IH _ Hs), Ha.
Qed.

Lemma rfind_from_last (c : ascii) (a b : string) (i : Z) :
  (0 <= i)%Z ->
  Str.contains (String c "") b = false ->
  Str.rfind_from c (a ++ String c b) i = (i + Z.of_nat (String.length a))%Z.
Proof.
  intros Hi Hb. revert i Hi. induction a as [|x a IH]; intros i Hi.
  - cbn [append Str.rfind_from String.length].
    rewrite (rfind_from_absent _ _ _ Hb), Ascii.eqb_refl. cbn. lia.
  - cbn [append Str.rfind_from String.length]. rewrite IH by lia.
    destruct (0 <=? i + 1 + Z.of_nat (String.length a))%Z eqn:E; [lia |].
    apply Z.leb_gt in E. lia.
Qed.

Lemma slice_from_past (a b : string) (c : ascii) :
  Str.slice_from (S (String.length a)) (a ++ String c b) = b.
Proof. induction a as [|x a IH]; [now destruct b | exact IH]. Qed.

Lemma slice_to_from (n : nat) (s : string) : Str.slice_to n s ++ Str.slice_from n s = s.
Proof.
  revert s. induction n as [|n IH]; intros s; [reflexivity |].
  destruct s as [|c s]; [reflexivity |]. cbn. now rewrite IH.
Qed.

(** A path without a slash is its own base name. *)
Lemma basename_no_sep (p : string) :
  Str.contains "/" p = false -> OsPath.basename p = p.
Proof.
  intros Hp. unfold OsPath.basename, Str.rfind.
  now rewrite (rfind_from_absent OsPath.sep p 0 Hp).
Qed.

(** The base name is what follows the last slash. *)
Lemma basename_after_last_sep (dir name : string) :
  Str.contains "/" name = false -> OsPath.basename (dir ++ "/" ++ name) = name.
Proof.
  intros Hname. unfold OsPath.basename, Str.rfind.
  change (dir ++ "/" ++ name) with (dir ++ String OsPath.sep name).
  rewrite (rfind_from_last OsPath.sep dir name 0 (Z.le_refl 0) Hname).
  replace (Z.to_nat (0 + Z.of_nat (String.length dir) + 1)) with (S (String.length dir))
    by lia.
  apply slice_from_past.
Qed.

(** [splitext] cuts its argument in two. *)
Lemma splitext_join (p : string) :
  fst (OsPath.splitext p) ++ snd (OsPath.splitext p) = p.
Proof.
  unfold OsPath.splitext.
  destruct (Str.rfind OsPath.sep p <? Str.rfind OsPath.extsep p)%Z;
    [destruct (OsPath.has_non_dot _ _ _) |]; cbn [fst snd];
    (apply slice_to_from || apply append_empty_r).
Qed.

(** The values Python gives on some paths. *)
Example os_path_examples :
  OsPath.basename "src/pkg/module.py" = "module.py" /\
  OsPath.basename "dir/" = "" /\
  OsPath.splitext "archive.tar.gz" = ("archive.tar", ".gz") /\
  OsPath.splitext ".gitignore" = (".gitignore", "") /\
  OsPath.splitext "..hidden.txt" = ("..hidden", ".txt") /\
  OsPath.splitext "Makefile" = ("Makefile", "") /\
  OsPath.splitext "v1.2/notes" = ("v1.2/notes", "").
Proof. repeat split. Qed.

Example str_examples :
  Str.strip (" " ++ Str.nl ++ "a b" ++ Str.nl) = "a b" /\
  Str.split_nl ("a" ++ Str.nl ++ Str.nl ++ "b") = ["a"; ""; "b"] /\
  Str.split_nl "" = [""] /\
  Str.split_nl_once ("a" ++ Str.nl ++ "b" ++ Str.nl ++ "c") = ["a"; "b" ++ Str.nl ++ "c"] /\
  Str.lower "Tests/TEST_x.PY" = "tests/test_x.py" /\
  Str.endswith "md" ".md" = false /\
  Str.of_nat 12 = "12".
Proof. repeat split. Qed.

(** ** The classifier: rule order and the empty set *)

(** C2: a non-empty staged set that holds at least one path with a
    test-indicating token (the substring [test] in any mix of cases, or the
    tests-directory prefix) and whose paths do not all end in the
    documentation extension is classified [test]; rule 2 is decided before
    rule 3 is looked at, so paths with source-code extensions in the set do
    not change the answer. *)
Theorem C2_test_token_gives_test (files : list string) :
  files <> [] ->
  (exists f, In f files /\ test_token_in f) ->
  ~ (forall f, In f files -> doc_path f) ->
  detect_commit_type files = inl "test".
Proof.
  intros _ [f [Hin Htok]] Hdocs.
  rewrite detect_commit_type_cases.
  destruct (forallb is_doc files) eqn:Eall.
  - exfalso. apply Hdocs. now apply forallb_is_doc.
  - assert (Hany : existsb has_test_token files = true).
    { apply existsb_exists. exists f. split; [assumption | now apply test_token_in_sound]. }
    now rewrite Hany.
Qed.

Lemma C2_test_token_gives_test_witness :
  detect_commit_type ["src/main.py"; "Tests/check_main.py"; "README.md"] = inl "test".
Proof.
  apply C2_test_token_gives_test.
  - discriminate.
  - exists "Tests/check_main.py". split; [simpl; tauto |].
    left. exists "", "Test", "s/check_main.py". split; reflexivity.
  - intros H. destruct (H "src/main.py") as [stem Hstem]; [simpl; tauto |].
    assert (E : Str.endswith "src/main.py" ".md" = true) by (apply endswith_iff; now exists stem).
    discriminate E.
Defined.

(** C8: on the empty staged set the classifier returns, and returns [docs]:
    the all-documentation test of rule 1 holds of the empty sequence. *)
Theorem C8_empty_set_is_docs :
  forallb is_doc [] = true /\ detect_commit_type [] = inl "docs".
Proof. split; reflexivity. Qed.

(** C9: on the staged set [main.py] the three-rule classifier answers [feat],
    and [detect_commit_type] raises [NameError]: the generator of rule 3 reads
    a variable [f] that no scope binds.  So the two classifiers are not equal
    on every staged set. *)
Theorem C9_source_file_raises :
  classify_simplified ["main.py"] = "feat" /\
  detect_commit_type ["main.py"] = inr (NameError "f").
Proof. split; reflexivity. Qed.

(** ** The composer *)

(** C3: for a staged set of exactly one path, the title is the type, the
    base name without its extension in parentheses, a colon, and [update]
    followed by the base name; for [README.md] and the type [docs] it is
    [docs(README): update README.md]. *)
Theorem C3_single_file_title :
  (forall (commit_type : string) (files : list string),
      List.length files = 1%nat ->
      exists file,
        files = [file] /\
        generate_summary commit_type files =
        commit_type ++ "(" ++ fst (OsPath.splitext (OsPath.basename file))
                    ++ "): update " ++ OsPath.basename file) /\
  generate_summary "docs" ["README.md"] = "docs(README): update README.md".
Proof.
  split; [| reflexivity].
  intros commit_type files Hlen.
  destruct files as [|file [|file' files]]; try discriminate Hlen.
  exists file. split; reflexivity.
Qed.

Lemma C3_single_file_title_witness :
  generate_summary "feat" ["src/pkg/archive.tar.gz"] = "feat(archive.tar): update archive.tar.gz".
Proof.
  destruct (proj1 C3_single_file_title "feat" ["src/pkg/archive.tar.gz"] eq_refl)
    as [file [Hfile Htitle]].
  rewrite Htitle. injection Hfile as <-. reflexivity.
Defined.

(** ** Lemmas on the run of the program *)

Lemma execs_app (a b : list event) : execs (a ++ b) = (execs a ++ execs b)%list.
Proof.
  induction a as [|e a IH]; simpl; [reflexivity |].
  destruct e; simpl; now rewrite IH.
Qed.

Lemma execs_presentation (title body : string) : execs (presentation title body) = [].
Proof. reflexivity. Qed.

Ltac flatten_trace :=
  repeat rewrite <- app_assoc; repeat rewrite <- app_comm_cons; repeat rewrite app_nil_l.

Lemma get_staged_files_run (os_run : list string -> option completed) (w : world) :
  get_staged_files os_run w =
  (match os_run git_diff_argv with
   | Some c => inl (staged_of c)
   | None => inr FileNotFoundError
   end,
   World (stdin w) (trace w ++ [Exec git_diff_argv])).
Proof.
  unfold get_staged_files, subprocess_run, bind, emit. simpl.
  destruct (os_run git_diff_argv); reflexivity.
Qed.

Lemma confirm_message_run (title body answer : string) (rest : list string) (tr : list event) :
  confirm_message title body (World (answer :: rest) tr) =
  let shown := (tr ++ presentation title body)%list in
  if existsb (String.eqb (choice_of answer)) [""; "y"; "yes"]
  then (inl (title, body), World rest shown)
  else if choice_of answer =? "edit"
  then
    match collect_lines rest [] with
    | (inl lines, rest') =>
        let parts := Str.split_nl_once (Str.join Str.nl lines) in
        (inl (nth 0 parts "",
              if (1 <? List.length parts)%nat then nth 1 parts "" else ""),
         World rest' (shown ++ [edit_invitation]))
    | (inr e, rest') => (inr e, World rest' (shown ++ [edit_invitation]))
    end
  else (inr (SystemExit 0), World rest (shown ++ [Print notice_canceled])).
Proof.
  unfold confirm_message, presentation, edit_invitation, input, print, bind, emit, ret.
  cbn [stdin trace]. fold (choice_of answer). flatten_trace. cbn [app].
  destruct (existsb (String.eqb (choice_of answer)) [""; "y"; "yes"]); [reflexivity |].
  destruct (choice_of answer =? "edit");
    [| unfold sys_exit, raise; cbn [stdin trace]; flatten_trace; reflexivity].
  unfold read_custom_message. cbn [stdin trace].
  destruct (collect_lines rest []) as [[lines | e] rest']; flatten_trace; reflexivity.
Qed.

Lemma run_commit_run (os_run : list string -> option completed)
      (title body : string) (w : world) :
  run_commit os_run title body w =
  let cmd :=
    if Str.truthy (Str.strip body)
    then ["git"; "commit"; "-m"; title; "-m"; body]
    else ["git"; "commit"; "-m"; title] in
  match os_run cmd with
  | Some c =>
      (inl tt,
       World (stdin w)
             (trace w ++ [Exec cmd;
                          Print (if (returncode c =? 0)%Z then notice_created
                                 else notice_failed)]))
  | None => (inr FileNotFoundError, World (stdin w) (trace w ++ [Exec cmd]))
  end.
Proof.
  unfold run_commit, subprocess_run, print, bind, emit, ret, raise.
  destruct (Str.truthy (Str.strip body)); cbn [app stdin trace];
    match goal with |- context [os_run ?cmd] => destruct (os_run cmd) as [c|] end;
    try reflexivity;
    destruct (returncode c =? 0)%Z; cbn [stdin trace]; flatten_trace; reflexivity.
Qed.

Lemma main_run (os_run : list string -> option completed) (c : completed) (w : world) :
  os_run git_diff_argv = Some c ->
  main os_run w =
  let listed := World (stdin w) (trace w ++ [Exec git_diff_argv]) in
  match staged_of c with
  | [] =>
      (inr (SystemExit 1),
       World (stdin w) (trace w ++ [Exec git_diff_argv; Print notice_nothing_staged]))
  | _ :: _ =>
      match detect_commit_type (staged_of c) with
      | inr e => (inr e, listed)
      | inl commit_type =>
          match confirm_message (generate_summary commit_type (staged_of c))
                                (generate_body (staged_of c)) listed with
          | (inl (title, body), confirmed) => run_commit os_run title body confirmed
          | (inr e, confirmed) => (inr e, confirmed)
          end
      end
  end.
Proof.
  intros Hrun. unfold main. unfold bind at 1.
  rewrite get_staged_files_run, Hrun.
  destruct (staged_of c) as [|file files] eqn:Efiles.
  - unfold bind, print, emit, sys_exit, raise. cbn. flatten_trace. reflexivity.
  - cbn [List.length Nat.ltb Nat.leb negb]. unfold bind at 1. unfold lift.
    destruct (detect_commit_type (file :: files)) as [commit_type | e]; [| reflexivity].
    unfold bind at 1.
    destruct (confirm_message _ _ _) as [[[title body] | e] confirmed]; reflexivity.
Qed.

Lemma main_with_nothing_staged (os_run : list string -> option completed) (c : completed)
      (classify : list string -> result string)
      (summarize : string -> list string -> string)
      (describe : list string -> string)
      (confirm : string -> string -> IO (string * string))
      (commit : string -> string -> IO unit) (w : world) :
  os_run git_diff_argv = Some c ->
  staged_of c = [] ->
  main_with os_run classify summarize describe confirm commit w =
  (inr (SystemExit 1),
   World (stdin w) (trace w ++ [Exec git_diff_argv; Print notice_nothing_staged])).
Proof.
  intros Hrun Hnone. unfold main_with. unfold bind at 1.
  rewrite get_staged_files_run, Hrun, Hnone.
  unfold bind, print, emit, sys_exit, raise. cbn. flatten_trace. reflexivity.
Qed.

Lemma main_is_main_with (os_run : list string -> option completed) :
  main os_run =
  main_with os_run detect_commit_type generate_summary generate_body
            confirm_message (run_commit os_run).
Proof. reflexivity. Qed.

(** A string that starts with a character that is no white space is not
    blank. *)
Lemma strip_keeps_head (c : ascii) (s : string) :
  Str.isspace c = false -> Str.truthy (Str.strip (String c s)) = true.
Proof.
  intros Hc. unfold Str.strip. cbn [Str.lstrip]. rewrite Hc.
  cbn [Str.rstrip]. rewrite Hc, andb_false_r. reflexivity.
Qed.

(** The body composed for a staged set that is not empty is not blank: it
    starts with the dash of its first bullet. *)
Lemma generate_body_not_blank (files : list string) :
  files <> [] -> Str.truthy (Str.strip (generate_body files)) = true.
Proof.
  destruct files as [|file files]; [congruence | intros _].
  unfold generate_body, Str.join. cbn [map String.concat].
  destruct (map _ files); cbn [append]; now apply strip_keeps_head.
Qed.

Lemma collect_lines_empty_first (rest lines : list string) :
  collect_lines ("" :: rest) lines = (inl lines, rest).
Proof. reflexivity. Qed.

Lemma main_run_listed (os_run : list string -> option completed)
      (files : list string) (w : world) :
  fst (get_staged_files os_run w) = inl files ->
  main os_run w =
  let listed := World (stdin w) (trace w ++ [Exec git_diff_argv]) in
  match files with
  | [] =>
      (inr (SystemExit 1),
       World (stdin w) (trace w ++ [Exec git_diff_argv; Print notice_nothing_staged]))
  | _ :: _ =>
      match detect_commit_type files with
      | inr e => (inr e, listed)
      | inl commit_type =>
          match confirm_message (generate_summary commit_type files)
                                (generate_body files) listed with
          | (inl (title, body), confirmed) => run_commit os_run title body confirmed
          | (inr e, confirmed) => (inr e, confirmed)
          end
      end
  end.
Proof.
  rewrite get_staged_files_run. cbn [fst].
  destruct (os_run git_diff_argv) as [c|] eqn:Hrun; [| discriminate].
  intros [= <-]. now apply main_run.
Qed.

Lemma existsb_eqb_In (x : string) (l : list string) :
  existsb (String.eqb x) l = true <-> In x l.
Proof.
  rewrite existsb_exists. split.
  - intros [y [Hy Heq]]. apply String.eqb_eq in Heq. now subst.
  - intros Hx. exists x. split; [assumption | apply String.eqb_refl].
Qed.

Lemma existsb_eqb_not_In (x : string) (l : list string) :
  ~ In x l -> existsb (String.eqb x) l = false.
Proof.
  intros Hx. destruct (existsb (String.eqb x) l) eqn:E; [| reflexivity].
  now apply existsb_eqb_In in E.
Qed.

Lemma confirm_message_accept (title body answer : string) (rest : list string)
      (tr : list event) :
  In (choice_of answer) [""; "y"; "yes"] ->
  confirm_message title body (World (answer :: rest) tr) =
  (inl (title, body), World rest (tr ++ presentation title body)).
Proof.
  intros Hyes. rewrite confirm_message_run. cbv zeta.
  now rewrite (proj2 (existsb_eqb_In _ _) Hyes).
Qed.

Lemma confirm_message_cancel (title body answer : string) (rest : list string)
      (tr : list event) :
  ~ In (choice_of answer) [""; "y"; "yes"; "edit"] ->
  confirm_message title body (World (answer :: rest) tr) =
  (inr (SystemExit 0),
   World rest (tr ++ presentation title body ++ [Print notice_canceled])).
Proof.
  intros Hother. rewrite confirm_message_run. cbv zeta.
  rewrite existsb_eqb_not_In by (cbn [In] in *; tauto).
  destruct (choice_of answer =? "edit") eqn:E.
  - apply String.eqb_eq in E. cbn [In] in Hother. intuition congruence.
  - now rewrite <- app_assoc.
Qed.

Lemma confirm_message_empty_edit (title body answer : string) (rest : list string)
      (tr : list event) :
  choice_of answer = "edit" ->
  confirm_message title body (World (answer :: "" :: rest) tr) =
  (inl ("", ""), World rest (tr ++ presentation title body ++ [edit_invitation])).
Proof.
  intros Hedit. rewrite confirm_message_run, Hedit, collect_lines_empty_first.
  cbn. now rewrite <- app_assoc.
Qed.

(** ** The lister *)

(** C1, as the program has it: when the version-control binary cannot be
    started, the lister raises [FileNotFoundError] to its caller, and the tool
    ends with it after the list command alone, before any message.  When the
    list operation runs, the lister does not look at its exit status: it
    returns the non-empty lines of the trimmed output, also after a failure;
    with a blank output that is the empty staged set, and the tool prints the
    no-staged-changes warning and exits with status 1. *)
Theorem C1_lister_failure_modes (os_run : list string -> option completed) (w : world) :
  list_operation_failed (os_run git_diff_argv) ->
  (os_run git_diff_argv = None ->
   fst (get_staged_files os_run w) = inr FileNotFoundError /\
   main os_run w =
   (inr FileNotFoundError, World (stdin w) (trace w ++ [Exec git_diff_argv]))) /\
  (forall c,
      os_run git_diff_argv = Some c ->
      fst (get_staged_files os_run w) = inl (staged_of c) /\
      (Str.strip (stdout c) = "" ->
       fst (get_staged_files os_run w) = inl [] /\
       main os_run w =
       (inr (SystemExit 1),
        World (stdin w)
              (trace w ++ [Exec git_diff_argv; Print notice_nothing_staged])))).
Proof.
  intros _. split.
  - intros Hnone. split.
    + now rewrite get_staged_files_run, Hnone.
    + unfold main. unfold bind at 1. now rewrite get_staged_files_run, Hnone.
  - intros c Hsome. split.
    + now rewrite get_staged_files_run, Hsome.
    + intros Hblank.
      assert (Hfiles : staged_of c = []) by (unfold staged_of; now rewrite Hblank).
      split.
      * now rewrite get_staged_files_run, Hsome, Hfiles.
      * now rewrite (main_run os_run c w Hsome), Hfiles.
Qed.

Lemma C1_lister_failure_modes_witness :
  fst (get_staged_files (any_run (Completed 128 "")) (World ["y"] [])) = inl [] /\
  fst (get_staged_files (fun _ => None) (World ["y"] [])) = inr FileNotFoundError.
Proof.
  split.
  - assert (Hfailed : list_operation_failed (any_run (Completed 128 "") git_diff_argv))
      by (simpl; discriminate).
    exact (proj1 (proj2 (proj2 (C1_lister_failure_modes _ (World ["y"] []) Hfailed)
                                _ eq_refl) eq_refl)).
  - exact (proj1 (proj1 (C1_lister_failure_modes (fun _ => None) (World ["y"] []) I)
                        eq_refl)).
Defined.

(** C1, as stated, fails: outside a repository the list operation runs and
    fails with status 128 and no output, and the lister returns the empty
    staged set, the value it returns when the operation succeeds with nothing
    staged. *)
Lemma C1_counterexample :
  list_operation_failed (any_run (Completed 128 "") git_diff_argv) /\
  ~ list_operation_failed (any_run (Completed 0 "") git_diff_argv) /\
  get_staged_files (any_run (Completed 128 "")) (World [] []) =
  (inl [], World [] [Exec git_diff_argv]) /\
  get_staged_files (any_run (Completed 128 "")) (World [] []) =
  get_staged_files (any_run (Completed 0 "")) (World [] []).
Proof.
  repeat split.
  - simpl. discriminate.
  - simpl. intros H. now apply H.
Qed.

(** ** The confirmer and the committer *)

(** C4: the commit step runs one command, [git commit -m title] followed by
    the extra arguments [-m body] exactly when the body is not blank after
    trimming white space, and by nothing exactly when it is blank. *)
Theorem C4_commit_arguments (os_run : list string -> option completed)
        (title body : string) (w : world) :
  exists extra,
    execs (trace (snd (run_commit os_run title body w))) =
    (execs (trace w) ++ [["git"; "commit"; "-m"; title] ++ extra])%list /\
    (extra = ["-m"; body] <-> Str.strip body <> "") /\
    (extra = [] <-> Str.strip body = "").
Proof.
  rewrite run_commit_run. cbv zeta.
  destruct (Str.strip body) as [|c s] eqn:Hstrip; cbn [Str.truthy Str.is_empty negb].
  - exists []. split; [| split; split; congruence].
    destruct (os_run _); cbn [snd trace]; rewrite execs_app; reflexivity.
  - exists ["-m"; body]. split; [| split; split; congruence].
    destruct (os_run _); cbn [snd trace]; rewrite execs_app; reflexivity.
Qed.

(** C5: an answer at the confirm prompt that is empty, [y] or [yes] (once
    trimmed and lowered) makes the confirmer return the title and the body it
    was given, and the tool, which had listed a staged set and classified it,
    goes on to the commit step with the composed title and body: the commit
    command carries both. *)
Theorem C5_accept_commits_unchanged (os_run : list string -> option completed)
        (files : list string) (commit_type answer : string)
        (rest : list string) (tr : list event) :
  In (choice_of answer) [""; "y"; "yes"] ->
  fst (get_staged_files os_run (World (answer :: rest) tr)) = inl files ->
  files <> [] ->
  detect_commit_type files = inl commit_type ->
  let title := generate_summary commit_type files in
  let body := generate_body files in
  (forall (t b : string) (tr' : list event),
      confirm_message t b (World (answer :: rest) tr') =
      (inl (t, b), World rest (tr' ++ presentation t b))) /\
  main os_run (World (answer :: rest) tr) =
  run_commit os_run title body
             (World rest (tr ++ Exec git_diff_argv :: presentation title body)) /\
  execs (trace (snd (main os_run (World (answer :: rest) tr)))) =
  (execs tr ++ [git_diff_argv; ["git"; "commit"; "-m"; title; "-m"; body]])%list.
Proof.
  intros Hyes Hlisted Hsome Htype title body.
  assert (Hmain : main os_run (World (answer :: rest) tr) =
                  run_commit os_run title body
                             (World rest (tr ++ Exec git_diff_argv :: presentation title body))).
  { rewrite (main_run_listed os_run files _ Hlisted). cbv zeta.
    destruct files as [|file files']; [congruence |].
    rewrite Htype. cbn [stdin trace].
    rewrite (confirm_message_accept _ _ _ _ _ Hyes).
    unfold title, body. now rewrite <- app_assoc. }
  split; [| split].
  - intros t b tr'. now apply confirm_message_accept.
  - exact Hmain.
  - assert (Hbody : Str.truthy (Str.strip body) = true)
      by now apply generate_body_not_blank.
    rewrite Hmain, run_commit_run, Hbody. cbv zeta.
    destruct (os_run _); cbn [snd trace]; rewrite !execs_app; cbn [execs];
      rewrite execs_presentation, <- app_assoc; reflexivity.
Qed.

Lemma C5_accept_commits_unchanged_witness :
  execs (trace (snd (main (any_run (Completed 0 "README.md")) (World [" YES "] [])))) =
  [git_diff_argv;
   ["git"; "commit"; "-m"; "docs(README): update README.md"; "-m"; "- Modified: README.md"]].
Proof.
  refine (proj2 (proj2 (C5_accept_commits_unchanged
                          (any_run (Completed 0 "README.md")) ["README.md"] "docs"
                          " YES " [] [] _ _ _ _))).
  - cbn. tauto.
  - reflexivity.
  - discriminate.
  - reflexivity.
Defined.

(** C6: an answer at the confirm prompt that is (once trimmed and lowered)
    none of the empty answer, [y], [yes] and [edit] makes the confirmer print
    the cancellation notice and leave with [sys.exit(0)]; the tool ends with
    exit status 0 and has run the list command only, no commit. *)
Theorem C6_other_answer_cancels (os_run : list string -> option completed)
        (files : list string) (commit_type answer : string)
        (rest : list string) (tr : list event) :
  ~ In (choice_of answer) [""; "y"; "yes"; "edit"] ->
  fst (get_staged_files os_run (World (answer :: rest) tr)) = inl files ->
  files <> [] ->
  detect_commit_type files = inl commit_type ->
  let title := generate_summary commit_type files in
  let body := generate_body files in
  (forall (t b : string) (tr' : list event),
      confirm_message t b (World (answer :: rest) tr') =
      (inr (SystemExit 0),
       World rest (tr' ++ presentation t b ++ [Print notice_canceled]))) /\
  main os_run (World (answer :: rest) tr) =
  (inr (SystemExit 0),
   World rest (tr ++ Exec git_diff_argv :: presentation title body
                  ++ [Print notice_canceled])) /\
  exit_status (fst (main os_run (World (answer :: rest) tr))) = 0%Z /\
  execs (trace (snd (main os_run (World (answer :: rest) tr)))) =
  (execs tr ++ [git_diff_argv])%list.
Proof.
  intros Hother Hlisted Hsome Htype title body.
  assert (Hmain : main os_run (World (answer :: rest) tr) =
                  (inr (SystemExit 0),
                   World rest (tr ++ Exec git_diff_argv :: presentation title body
                                  ++ [Print notice_canceled]))).
  { rewrite (main_run_listed os_run files _ Hlisted). cbv zeta.
    destruct files as [|file files']; [congruence |].
    rewrite Htype. cbn [stdin trace].
    rewrite (confirm_message_cancel _ _ _ _ _ Hother).
    unfold title, body. now rewrite <- app_assoc. }
  split; [| split; [| split]].
  - intros t b tr'. now apply confirm_message_cancel.
  - exact Hmain.
  - now rewrite Hmain.
  - rewrite Hmain. cbn [snd trace]. rewrite execs_app. cbn [execs].
    rewrite execs_app, execs_presentation. reflexivity.
Qed.

Lemma C6_other_answer_cancels_witness :
  main (any_run (Completed 0 "README.md")) (World ["n"; "later"] []) =
  (inr (SystemExit 0),
   World ["later"]
         (Exec git_diff_argv
            :: presentation "docs(README): update README.md" "- Modified: README.md"
            ++ [Print notice_canceled])).
Proof.
  refine (proj1 (proj2 (C6_other_answer_cancels
                          (any_run (Completed 0 "README.md")) ["README.md"] "docs"
                          "n" ["later"] [] _ _ _ _))).
  - cbn. intros [H | [H | [H | [H | []]]]]; discriminate H.
  - reflexivity.
  - discriminate.
  - reflexivity.
Defined.

(** C7: when the lister returns the empty staged set, the tool prints the
    no-staged-changes warning and exits with status 1; the list command is
    the only command run, nothing is read from the input, and the outcome is
    the same whatever the classifier, the composer, the confirmer and the
    committer are: none of them is called. *)
Theorem C7_nothing_staged_exits_1 (os_run : list string -> option completed) (w : world) :
  fst (get_staged_files os_run w) = inl [] ->
  main os_run w =
  (inr (SystemExit 1),
   World (stdin w) (trace w ++ [Exec git_diff_argv; Print notice_nothing_staged])) /\
  exit_status (fst (main os_run w)) = 1%Z /\
  execs (trace (snd (main os_run w))) = (execs (trace w) ++ [git_diff_argv])%list /\
  (forall classify summarize describe confirm commit,
      main_with os_run classify summarize describe confirm commit w = main os_run w).
Proof.
  intros Hlisted.
  assert (Hmain := main_run_listed os_run [] w Hlisted). cbv zeta in Hmain.
  rewrite Hmain. split; [reflexivity | split; [reflexivity | split]].
  - cbn [snd trace]. now rewrite execs_app.
  - intros classify summarize describe confirm commit.
    rewrite get_staged_files_run in Hlisted. cbn [fst] in Hlisted.
    destruct (os_run git_diff_argv) as [c|] eqn:Hrun; [| discriminate].
    injection Hlisted as Hnone.
    now apply main_with_nothing_staged with (c := c).
Qed.

Lemma C7_nothing_staged_exits_1_witness :
  exit_status (fst (main (any_run (Completed 0 Str.nl)) (World ["y"] []))) = 1%Z.
Proof.
  exact (proj1 (proj2 (C7_nothing_staged_exits_1
                         (any_run (Completed 0 Str.nl)) (World ["y"] []) eq_refl))).
Defined.

(** C10: an edit session whose first line is empty gives the empty title and
    the empty body, and the tool goes on to the commit step with them: it
    runs [git commit -m ""] with no body argument, and does not leave through
    [sys.exit] as a cancellation does. *)
Theorem C10_empty_edit_commits_empty_title (os_run : list string -> option completed)
        (files : list string) (commit_type answer : string)
        (rest : list string) (tr : list event) :
  choice_of answer = "edit" ->
  fst (get_staged_files os_run (World (answer :: "" :: rest) tr)) = inl files ->
  files <> [] ->
  detect_commit_type files = inl commit_type ->
  let title := generate_summary commit_type files in
  let body := generate_body files in
  (forall (t b : string) (tr' : list event),
      confirm_message t b (World (answer :: "" :: rest) tr') =
      (inl ("", ""), World rest (tr' ++ presentation t b ++ [edit_invitation]))) /\
  main os_run (World (answer :: "" :: rest) tr) =
  run_commit os_run "" ""
             (World rest (tr ++ Exec git_diff_argv :: presentation title body
                             ++ [edit_invitation])) /\
  execs (trace (snd (main os_run (World (answer :: "" :: rest) tr)))) =
  (execs tr ++ [git_diff_argv; ["git"; "commit"; "-m"; ""]])%list /\
  (forall code, fst (main os_run (World (answer :: "" :: rest) tr)) <> inr (SystemExit code)).
Proof.
  intros Hedit Hlisted Hsome Htype title body.
  assert (Hmain : main os_run (World (answer :: "" :: rest) tr) =
                  run_commit os_run "" ""
                             (World rest (tr ++ Exec git_diff_argv :: presentation title body
                                             ++ [edit_invitation]))).
  { rewrite (main_run_listed os_run files _ Hlisted). cbv zeta.
    destruct files as [|file files']; [congruence |].
    rewrite Htype. cbn [stdin trace].
    rewrite (confirm_message_empty_edit _ _ _ _ _ Hedit).
    unfold title, body. now rewrite <- app_assoc. }
  split; [| split; [| split]].
  - intros t b tr'. now apply confirm_message_empty_edit.
  - exact Hmain.
  - rewrite Hmain, run_commit_run. cbn -[presentation execs].
    destruct (os_run _); cbn [snd trace]; rewrite !execs_app; cbn [execs];
      rewrite execs_app, execs_presentation, <- app_assoc; reflexivity.
  - intros code. rewrite Hmain, run_commit_run. cbn -[presentation].
    destruct (os_run _); cbn [fst]; discriminate.
Qed.

Lemma C10_empty_edit_commits_empty_title_witness :
  execs (trace (snd (main (any_run (Completed 0 "README.md")) (World ["Edit"; ""] [])))) =
  [git_diff_argv; ["git"; "commit"; "-m"; ""]].
Proof.
  refine (proj1 (proj2 (proj2 (C10_empty_edit_commits_empty_title
                                 (any_run (Completed 0 "README.md")) ["README.md"] "docs"
                                 "Edit" [] [] _ _ _ _)))).
  - reflexivity.
  - reflexivity.
  - discriminate.
  - reflexivity.
Defined.

(** ** The examples of the description, run *)

Example title_of_three_files :
  generate_summary "feat" ["a.py"; "b.py"; "c.py"] = "feat: update 3 files".
Proof. reflexivity. Qed.

Example body_of_two_files :
  generate_body ["x/y.py"; "z.py"] = "- Modified: x/y.py" ++ Str.nl ++ "- Modified: z.py".
Proof. reflexivity. Qed.

Example edit_two_lines (title body : string) :
  fst (confirm_message title body (World ["edit"; "foo"; "bar baz"; ""] [])) =
  inl ("foo", "bar baz").
Proof. reflexivity. Qed.

(** An edit session that the end of the input cuts short raises. *)
Example edit_without_empty_line (title body : string) :
  fst (confirm_message title body (World ["edit"; "foo"] [])) = inr EOFError.
Proof. reflexivity. Qed.

(** A staged set of source files alone stops the tool in the classifier,
    before anything is shown. *)
Example main_on_source_files :
  main (any_run (Completed 0 ("main.py" ++ Str.nl ++ "util.py"))) (World ["y"] []) =
  (inr (NameError "f"), World ["y"] [Exec git_diff_argv]).
Proof. reflexivity. Qed.

(** * Further properties of the stages *)

(** ** The classifier on every staged set *)

Lemma lower_split (f a b : string) :
  Str.lower f = a ++ b ->
  exists a' b', f = a' ++ b' /\ Str.lower a' = a /\ Str.lower b' = b.
Proof.
  revert f. induction a as [|x a IH]; intros f H.
  - exists "", f. repeat split. exact H.
  - destruct f as [|c f]; [discriminate H |].
    cbn [Str.lower append] in H. injection H as Hc Hf.
    destruct (IH f Hf) as [a' [b' [-> [Ha Hb]]]].
    exists (String c a'), b'. cbn [Str.lower append]. now rewrite Hc, Ha.
Qed.

Lemma has_test_token_complete (f : string) : has_test_token f = true -> test_token_in f.
Proof.
  rewrite has_test_token_iff, contains_iff. intros [pre [post H]]. left.
  destruct (lower_split _ _ _ H) as [pre' [rest [-> [_ Hrest]]]].
  destruct (lower_split _ _ _ Hrest) as [tok [post' [-> [Htok _]]]].
  now exists pre', tok, post'.
Qed.

Lemma forallb_false_witness {A : Type} (p : A -> bool) (l : list A) :
  forallb p l = false -> exists x, In x l /\ p x = false.
Proof.
  induction l as [|x l IH]; [discriminate |].
  cbn [forallb]. destruct (p x) eqn:Hx.
  - intros H. destruct (IH H) as [y [Hy Hpy]]. exists y. split; [now right | assumption].
  - intros _. exists x. split; [now left | assumption].
Qed.

Lemma is_doc_false (f : string) : is_doc f = false <-> ~ doc_path f.
Proof.
  unfold is_doc, doc_path. rewrite <- endswith_iff.
  destruct (Str.endswith f ".md"); split; congruence.
Qed.

Lemma no_test_token_iff (files : list string) :
  existsb has_test_token files = false <-> (forall f, In f files -> ~ test_token_in f).
Proof.
  split.
  - intros Hnone f Hf Htok.
    assert (E : existsb has_test_token files = true).
    { apply existsb_exists. exists f. split; [assumption | now apply test_token_in_sound]. }
    congruence.
  - intros Hnone. destruct (existsb has_test_token files) eqn:E; [| reflexivity].
    apply existsb_exists in E. destruct E as [f [Hf Htok]].
    exfalso. exact (Hnone f Hf (has_test_token_complete f Htok)).
Qed.

Lemma not_all_docs_iff (files : list string) :
  forallb is_doc files = false <-> (exists f, In f files /\ ~ doc_path f).
Proof.
  split.
  - intros H. destruct (forallb_false_witness _ _ H) as [f [Hf Hdoc]].
    exists f. split; [assumption | now apply is_doc_false].
  - intros [f [Hf Hdoc]]. destruct (forallb is_doc files) eqn:E; [| reflexivity].
    exfalso. apply Hdoc. now apply (proj1 (forallb_is_doc files) E).
Qed.

Lemma detect_commit_type_raises (files : list string) :
  (exists f, In f files /\ ~ doc_path f) ->
  (forall f, In f files -> ~ test_token_in f) ->
  detect_commit_type files = inr (NameError "f").
Proof.
  intros Hother Hnone. rewrite detect_commit_type_cases.
  rewrite (proj2 (not_all_docs_iff files) Hother).
  now rewrite (proj2 (no_test_token_iff files) Hnone).
Qed.

(** X1: the classifier answers [docs] exactly when every staged path ends in
    [.md] (as written, in lower case); the empty set is among them. *)
Theorem X1_docs_iff_all_md (files : list string) :
  detect_commit_type files = inl "docs" <-> (forall f, In f files -> doc_path f).
Proof.
  rewrite detect_commit_type_cases, <- forallb_is_doc.
  destruct (forallb is_doc files); [tauto |].
  destruct (existsb has_test_token files); split; discriminate.
Qed.

(** X2: the classifier never answers [feat] or [chore]: a label it returns
    is [docs] or [test]; the only exception it raises is the [NameError] on
    [f], and it raises it exactly when some staged path does not end in [.md]
    and no staged path holds a test token. *)
Theorem X2_classifier_outcomes (files : list string) :
  (forall label, detect_commit_type files = inl label -> label = "docs" \/ label = "test") /\
  (forall e, detect_commit_type files = inr e -> e = NameError "f") /\
  (detect_commit_type files = inr (NameError "f") <->
   (exists f, In f files /\ ~ doc_path f) /\
   (forall f, In f files -> ~ test_token_in f)).
Proof.
  rewrite detect_commit_type_cases, <- not_all_docs_iff, <- no_test_token_iff.
  destruct (forallb is_doc files); [| destruct (existsb has_test_token files)];
    (split; [| split]).
  - intros label [= <-]. now left.
  - discriminate.
  - split; [discriminate | intros [H _]; discriminate H].
  - intros label [= <-]. now right.
  - discriminate.
  - split; [discriminate | intros [_ H]; discriminate H].
  - discriminate.
  - now intros e [= <-].
  - tauto.
Qed.

Lemma X2_classifier_outcomes_witness :
  detect_commit_type ["README.md"; "Makefile"; "package.json"] = inr (NameError "f").
Proof.
  apply (proj2 (proj2 (X2_classifier_outcomes ["README.md"; "Makefile"; "package.json"]))).
  split.
  - exists "Makefile". split; [cbn; tauto |]. now apply is_doc_false.
  - apply no_test_token_iff. reflexivity.
Defined.

Lemma forallb_permutation {A : Type} (p : A -> bool) (l l' : list A) :
  Permutation l l' -> forallb p l = forallb p l'.
Proof.
  induction 1 as [| x l l' _ IH | x y l | l l' l'' _ IH1 _ IH2]; cbn [forallb].
  - reflexivity.
  - now rewrite IH.
  - now rewrite !andb_assoc, (andb_comm (p y)).
  - now rewrite IH1.
Qed.

Lemma existsb_permutation {A : Type} (p : A -> bool) (l l' : list A) :
  Permutation l l' -> existsb p l = existsb p l'.
Proof.
  induction 1 as [| x l l' _ IH | x y l | l l' l'' _ IH1 _ IH2]; cbn [existsb].
  - reflexivity.
  - now rewrite IH.
  - now rewrite !orb_assoc, (orb_comm (p y)).
  - now rewrite IH1.
Qed.

(** X3: the outcome of the classifier does not depend on the order in which
    the staged paths are listed. *)
Theorem X3_classifier_order_free (files files' : list string) :
  Permutation files files' -> detect_commit_type files = detect_commit_type files'.
Proof.
  intros Hperm. rewrite !detect_commit_type_cases.
  now rewrite (forallb_permutation _ _ _ Hperm), (existsb_permutation _ _ _ Hperm).
Qed.

Lemma X3_classifier_order_free_witness :
  detect_commit_type ["notes.md"; "src/test_api.py"] =
  detect_commit_type ["src/test_api.py"; "notes.md"].
Proof. apply X3_classifier_order_free. apply perm_swap. Defined.

(** X4: when the lister returns a staged set with a path that does not end
    in [.md] and without any test token, the tool ends in the classifier with
    the [NameError] on [f]: it has run the list command only, has shown
    nothing and read nothing, and the process exits with status 1. *)
Theorem X4_unclassified_set_stops_tool (os_run : list string -> option completed)
        (files : list string) (w : world) :
  fst (get_staged_files os_run w) = inl files ->
  (exists f, In f files /\ ~ doc_path f) ->
  (forall f, In f files -> ~ test_token_in f) ->
  main os_run w =
  (inr (NameError "f"), World (stdin w) (trace w ++ [Exec git_diff_argv])) /\
  exit_status (fst (main os_run w)) = 1%Z.
Proof.
  intros Hlisted Hother Hnone.
  assert (Hraise : detect_commit_type files = inr (NameError "f"))
    by now apply detect_commit_type_raises.
  assert (Hmain : main os_run w =
                  (inr (NameError "f"), World (stdin w) (trace w ++ [Exec git_diff_argv]))).
  { rewrite (main_run_listed os_run files w Hlisted). cbv zeta.
    destruct files as [|file files']; [| now rewrite Hraise].
    destruct Hother as [f [[] _]]. }
  split; [exact Hmain | now rewrite Hmain].
Qed.

Lemma X4_unclassified_set_stops_tool_witness :
  main (any_run (Completed 0 ("src/app.js" ++ Str.nl ++ "package.json" ++ Str.nl)))
       (World ["y"] []) =
  (inr (NameError "f"), World ["y"] [Exec git_diff_argv]).
Proof.
  refine (proj1 (X4_unclassified_set_stops_tool
                   (any_run (Completed 0 ("src/app.js" ++ Str.nl ++ "package.json" ++ Str.nl)))
                   ["src/app.js"; "package.json"] (World ["y"] []) _ _ _)).
  - reflexivity.
  - exists "src/app.js". split; [cbn; tauto |]. now apply is_doc_false.
  - apply no_test_token_iff. reflexivity.
Defined.

(** ** The lister and the body on lines *)

Lemma contains_nl_cons (c : ascii) (s : string) :
  Str.contains Str.nl (String c s) = Ascii.eqb c Str.nl_char || Str.contains Str.nl s.
Proof. unfold Str.nl. now rewrite contains_cons, single_char_prefix. Qed.

Lemma contains_nl_app (a b : string) :
  Str.contains Str.nl (a ++ b) = Str.contains Str.nl a || Str.contains Str.nl b.
Proof.
  induction a as [|c a IH]; [reflexivity |].
  cbn [append]. now rewrite !contains_nl_cons, IH, orb_assoc.
Qed.

Lemma split_nl_not_nil (s : string) : Str.split_nl s <> [].
Proof.
  destruct s as [|c s]; cbn [Str.split_nl]; [discriminate |].
  destruct (Ascii.eqb c Str.nl_char); [discriminate |].
  destruct (Str.split_nl s); discriminate.
Qed.

(** No piece of a split holds a line feed. *)
Lemma split_nl_pieces (s : string) :
  Forall (fun piece => Str.contains Str.nl piece = false) (Str.split_nl s).
Proof.
  induction s as [|c s IH]; cbn [Str.split_nl].
  - now constructor.
  - destruct (Ascii.eqb c Str.nl_char) eqn:Ec.
    + now constructor.
    + destruct (Str.split_nl s) as [|h t]; constructor; try constructor.
      * now rewrite contains_nl_cons, Ec.
      * inversion IH as [|? ? Hh Ht]; subst. now rewrite contains_nl_cons, Ec, Hh.
      * now inversion IH.
Qed.

Lemma split_nl_line (a : string) :
  Str.contains Str.nl a = false -> Str.split_nl a = [a].
Proof.
  induction a as [|c a IH]; [reflexivity |].
  rewrite contains_nl_cons, orb_false_iff. intros [Hc Ha].
  cbn [Str.split_nl]. now rewrite Hc, (IH Ha).
Qed.

Lemma split_nl_first_line (a b : string) :
  Str.contains Str.nl a = false ->
  Str.split_nl (a ++ Str.nl ++ b) = a :: Str.split_nl b.
Proof.
  induction a as [|c a IH].
  - intros _. reflexivity.
  - rewrite contains_nl_cons, orb_false_iff. intros [Hc Ha].
    cbn [append Str.split_nl]. rewrite Hc.
    change (a ++ String Str.nl_char b) with (a ++ Str.nl ++ b). now rewrite (IH Ha).
Qed.

(** Lines without line feeds, joined and split again, are the same lines. *)
Lemma split_nl_join (lines : list string) :
  lines <> [] ->
  Forall (fun line => Str.contains Str.nl line = false) lines ->
  Str.split_nl (Str.join Str.nl lines) = lines.
Proof.
  unfold Str.join. induction lines as [|x [|y ys] IH]; intros Hne Hall.
  - congruence.
  - inversion Hall; subst. now apply split_nl_line.
  - inversion Hall as [|? ? Hx Hrest]; subst.
    cbn [String.concat]. rewrite (split_nl_first_line _ _ Hx).
    f_equal. apply IH; [discriminate | assumption].
Qed.

Lemma filter_all {A : Type} (p : A -> bool) (l : list A) :
  (forall x, In x l -> p x = true) -> filter p l = l.
Proof.
  induction l as [|x l IH]; intros H; [reflexivity |].
  cbn [filter]. rewrite (H x (or_introl eq_refl)). f_equal.
  apply IH. intros y Hy. apply H. now right.
Qed.

Lemma truthy_iff (s : string) : Str.truthy s = true <-> s <> "".
Proof. destruct s; cbn; split; congruence. Qed.

(** X5: whatever the list operation printed, every path the lister returns
    is a non-empty string without a line feed. *)
Theorem X5_listed_paths_wellformed (os_run : list string -> option completed)
        (w : world) (files : list string) (f : string) :
  fst (get_staged_files os_run w) = inl files ->
  In f files ->
  f <> "" /\ Str.contains Str.nl f = false.
Proof.
  rewrite get_staged_files_run. cbn [fst].
  destruct (os_run git_diff_argv) as [c|]; [| discriminate].
  intros [= <-] Hf. unfold staged_of in Hf.
  apply filter_In in Hf. destruct Hf as [Hpiece Htrue]. split.
  - now apply truthy_iff.
  - exact (proj1 (Forall_forall _ _) (split_nl_pieces _) f Hpiece).
Qed.

Lemma X5_listed_paths_wellformed_witness :
  "b c.txt" <> "" /\ Str.contains Str.nl "b c.txt" = false.
Proof.
  apply (X5_listed_paths_wellformed
           (any_run (Completed 1 (Str.nl ++ "a.md" ++ Str.nl ++ Str.nl ++ "b c.txt" ++ Str.nl)))
           (World [] []) ["a.md"; "b c.txt"]).
  - reflexivity.
  - cbn. tauto.
Defined.

(** X7: the body holds one line per staged path, in the order of the staged
    set: split at its line feeds, the body of a non-empty set of paths
    without line feeds is the list of the paths, each after [- Modified: ]. *)
Theorem X7_body_lines (files : list string) :
  files <> [] ->
  (forall f, In f files -> Str.contains Str.nl f = false) ->
  Str.split_nl (generate_body files) = map (fun f => "- Modified: " ++ f) files.
Proof.
  intros Hne Hall. unfold generate_body. apply split_nl_join.
  - destruct files; [congruence | discriminate].
  - apply Forall_forall. intros line Hline.
    apply in_map_iff in Hline. destruct Hline as [f [<- Hf]].
    now rewrite contains_nl_app, (Hall f Hf).
Qed.

Lemma X7_body_lines_witness :
  Str.split_nl (generate_body ["x/y.py"; "z.py"; "docs/a b.md"]) =
  ["- Modified: x/y.py"; "- Modified: z.py"; "- Modified: docs/a b.md"].
Proof.
  apply (X7_body_lines ["x/y.py"; "z.py"; "docs/a b.md"]).
  - discriminate.
  - intros f [<- | [<- | [<- | []]]]; reflexivity.
Defined.

(** ** Trimming *)

Lemma length_lstrip (s : string) : String.length (Str.lstrip s) <= String.length s.
Proof.
  induction s as [|c s IH]; cbn [Str.lstrip String.length]; [lia |].
  destruct (Str.isspace c); cbn [String.length]; lia.
Qed.

Lemma length_rstrip (s : string) : String.length (Str.rstrip s) <= String.length s.
Proof.
  induction s as [|c s IH]; cbn [Str.rstrip String.length]; [lia |].
  destruct (Str.is_empty (Str.rstrip s) && Str.isspace c); cbn [String.length]; lia.
Qed.

(** A string that trimming leaves alone is left alone on either side. *)
Lemma strip_fixed_sides (s : string) :
  Str.strip s = s -> Str.lstrip s = s /\ Str.rstrip s = s.
Proof.
  unfold Str.strip. intros H.
  assert (Hl : Str.lstrip s = s).
  { destruct s as [|c s]; [reflexivity |].
    cbn [Str.lstrip] in *. destruct (Str.isspace c); [| reflexivity].
    exfalso.
    assert (L1 := length_rstrip (Str.lstrip s)). assert (L2 := length_lstrip s).
    rewrite H in L1. cbn [String.length] in L1. lia. }
  split; [exact Hl | now rewrite Hl in H].
Qed.

Lemma lstrip_app_fixed (f t : string) :
  f <> "" -> Str.lstrip f = f -> Str.lstrip (f ++ t) = f ++ t.
Proof.
  destruct f as [|c f]; [congruence | intros _ H].
  cbn [append Str.lstrip] in *. destruct (Str.isspace c); [| reflexivity].
  exfalso. assert (L := length_lstrip f). rewrite H in L. cbn [String.length] in L. lia.
Qed.

Lemma rstrip_app_fixed (a b : string) :
  b <> "" -> Str.rstrip b = b -> Str.rstrip (a ++ b) = a ++ b.
Proof.
  intros Hb H. induction a as [|x a IH]; [exact H |].
  cbn [append Str.rstrip]. rewrite IH.
  destruct (a ++ b) eqn:E; [| reflexivity].
  destruct a; [cbn in E; congruence | discriminate E].
Qed.

Lemma rstrip_app_blank (a b : string) :
  Str.rstrip b = "" -> Str.rstrip (a ++ b) = Str.rstrip a.
Proof.
  intros H. induction a as [|x a IH]; [exact H |].
  cbn [append Str.rstrip]. now rewrite IH.
Qed.

Lemma join_cons (sep x : string) (l : list string) :
  l <> [] -> Str.join sep (x :: l) = x ++ sep ++ Str.join sep l.
Proof. destruct l; [congruence | reflexivity]. Qed.

Lemma rstrip_join_fixed (lines : list string) :
  lines <> [] ->
  (forall line, In line lines -> line <> "" /\ Str.rstrip line = line) ->
  Str.join Str.nl lines <> "" /\ Str.rstrip (Str.join Str.nl lines) = Str.join Str.nl lines.
Proof.
  induction lines as [|x [|y ys] IH]; intros Hne Hall.
  - congruence.
  - cbn. apply Hall. now left.
  - destruct IH as [IHne IHfix]; [discriminate | intros l Hl; apply Hall; now right |].
    rewrite join_cons by discriminate. split.
    + destruct x; [discriminate | discriminate].
    + rewrite <- append_assoc. now apply rstrip_app_fixed.
Qed.

(** The output of a list operation that prints the paths one per line. *)
Lemma strip_listing (files : list string) :
  files <> [] ->
  (forall f, In f files -> f <> "" /\ Str.strip f = f) ->
  Str.strip (Str.join Str.nl files ++ Str.nl) = Str.join Str.nl files.
Proof.
  intros Hne Hall.
  assert (Hsides : forall f, In f files -> f <> "" /\ Str.rstrip f = f).
  { intros f Hf. destruct (Hall f Hf) as [Hf1 Hf2]. split; [assumption |].
    now apply strip_fixed_sides. }
  destruct (rstrip_join_fixed files Hne Hsides) as [_ Hfix].
  unfold Str.strip.
  assert (Hl : Str.lstrip (Str.join Str.nl files ++ Str.nl) = Str.join Str.nl files ++ Str.nl).
  { destruct files as [|f fs]; [congruence |].
    destruct (Hall f (or_introl eq_refl)) as [Hf1 Hf2].
    apply strip_fixed_sides in Hf2. destruct Hf2 as [Hf2 _].
    destruct fs as [|g gs].
    - now apply lstrip_app_fixed.
    - rewrite join_cons by discriminate. rewrite append_assoc.
      now apply lstrip_app_fixed. }
  rewrite Hl, rstrip_app_blank by reflexivity. exact Hfix.
Qed.

(** X6: when the list operation prints the staged paths one per line, each
    ended by a line feed, and the paths are non-empty, without a line feed and
    without white space at either end, the lister returns exactly these
    paths, in order, whatever the exit status. *)
Theorem X6_lister_reads_listing (os_run : list string -> option completed)
        (w : world) (files : list string) (status : Z) :
  files <> [] ->
  (forall f, In f files ->
             f <> "" /\ Str.strip f = f /\ Str.contains Str.nl f = false) ->
  os_run git_diff_argv = Some (Completed status (Str.join Str.nl files ++ Str.nl)) ->
  get_staged_files os_run w =
  (inl files, World (stdin w) (trace w ++ [Exec git_diff_argv])).
Proof.
  intros Hne Hall Hrun. rewrite get_staged_files_run, Hrun. f_equal. f_equal.
  unfold staged_of. cbn [stdout].
  rewrite strip_listing; [| assumption | intros f Hf; split; now apply Hall].
  rewrite split_nl_join; [| assumption | apply Forall_forall; intros f Hf; now apply Hall].
  apply filter_all. intros f Hf. apply truthy_iff. now apply Hall.
Qed.

Lemma X6_lister_reads_listing_witness :
  fst (get_staged_files
         (any_run (Completed 0 (Str.join Str.nl ["src/a b.py"; "README.md"] ++ Str.nl)))
         (World [] [])) = inl ["src/a b.py"; "README.md"].
Proof.
  rewrite (X6_lister_reads_listing
             (any_run (Completed 0 (Str.join Str.nl ["src/a b.py"; "README.md"] ++ Str.nl)))
             (World [] []) ["src/a b.py"; "README.md"] 0).
  - reflexivity.
  - discriminate.
  - intros f [<- | [<- | []]]; repeat split; discriminate.
  - reflexivity.
Defined.

(** ** The title *)

(** X8: the title of a single staged path does not show its directory: for
    a name without a slash, the title of [dir/name] is the title of [name],
    made of the name and of the name without its extension. *)
Theorem X8_title_ignores_directory (commit_type dir name : string) :
  Str.contains "/" name = false ->
  generate_summary commit_type [dir ++ "/" ++ name] = generate_summary commit_type [name] /\
  generate_summary commit_type [dir ++ "/" ++ name] =
  commit_type ++ "(" ++ fst (OsPath.splitext name) ++ "): update " ++ name.
Proof.
  intros Hname. unfold generate_summary. cbn [List.length Nat.eqb nth].
  now rewrite (basename_after_last_sep dir name Hname), (basename_no_sep name Hname).
Qed.

Lemma X8_title_ignores_directory_witness :
  generate_summary "test" ["pkg/tests" ++ "/" ++ "test_io.py"] =
  "test(test_io): update test_io.py".
Proof.
  rewrite (proj2 (X8_title_ignores_directory "test" "pkg/tests" "test_io.py" eq_refl)).
  reflexivity.
Defined.

Lemma slices_without_nl (n : nat) (s : string) :
  Str.contains Str.nl s = false ->
  Str.contains Str.nl (Str.slice_to n s) = false /\
  Str.contains Str.nl (Str.slice_from n s) = false.
Proof.
  intros H. rewrite <- (slice_to_from n s), contains_nl_app in H.
  now apply orb_false_iff in H.
Qed.

Lemma basename_without_nl (p : string) :
  Str.contains Str.nl p = false -> Str.contains Str.nl (OsPath.basename p) = false.
Proof. intros H. unfold OsPath.basename. now apply slices_without_nl. Qed.

Lemma splitext_root_without_nl (p : string) :
  Str.contains Str.nl p = false -> Str.contains Str.nl (fst (OsPath.splitext p)) = false.
Proof.
  intros H. unfold OsPath.splitext.
  destruct (Str.rfind OsPath.sep p <? Str.rfind OsPath.extsep p)%Z;
    [destruct (OsPath.has_non_dot _ _ _) |]; cbn [fst]; try assumption.
  now apply slices_without_nl.
Qed.

Lemma digits_without_nl (d : Decimal.uint) :
  Str.contains Str.nl (NilEmpty.string_of_uint d) = false.
Proof.
  induction d; cbn [NilEmpty.string_of_uint]; [reflexivity | ..];
    now rewrite contains_nl_cons, IHd.
Qed.

Lemma of_nat_without_nl (n : nat) : Str.contains Str.nl (Str.of_nat n) = false.
Proof.
  unfold Str.of_nat, NilZero.string_of_uint.
  destruct (Nat.to_uint n) eqn:E; [reflexivity | ..];
    rewrite <- E; apply digits_without_nl.
Qed.

(** X9: the title composed for what the classifier and the lister returned
    is a single line: it holds no line feed, for one staged path as for
    several. *)
Theorem X9_title_is_one_line (os_run : list string -> option completed) (w : world)
        (files : list string) (commit_type : string) :
  fst (get_staged_files os_run w) = inl files ->
  detect_commit_type files = inl commit_type ->
  Str.contains Str.nl (generate_summary commit_type files) = false.
Proof.
  intros Hlisted Htype.
  assert (Hlabel : Str.contains Str.nl commit_type = false).
  { rewrite detect_commit_type_cases in Htype.
    destruct (forallb is_doc files); [now injection Htype as <- |].
    destruct (existsb has_test_token files); [now injection Htype as <- | discriminate]. }
  assert (Hfiles : forall f, In f files -> Str.contains Str.nl f = false).
  { rewrite get_staged_files_run in Hlisted. cbn [fst] in Hlisted.
    destruct (os_run git_diff_argv) as [c|]; [| discriminate].
    injection Hlisted as <-. intros f Hf. unfold staged_of in Hf.
    apply filter_In in Hf.
    exact (proj1 (Forall_forall _ _) (split_nl_pieces _) f (proj1 Hf)). }
  unfold generate_summary.
  destruct (List.length files =? 1)%nat eqn:Hone.
  - destruct files as [|file [|file' files']]; try discriminate Hone.
    cbn [nth].
    assert (Hbase := basename_without_nl file (Hfiles file (or_introl eq_refl))).
    rewrite !contains_nl_app, Hlabel, Hbase, (splitext_root_without_nl _ Hbase).
    reflexivity.
  - now rewrite !contains_nl_app, Hlabel, of_nat_without_nl.
Qed.

Lemma X9_title_is_one_line_witness :
  Str.contains Str.nl (generate_summary "test" ["a/test_x.py"; "b.md"]) = false.
Proof.
  apply (X9_title_is_one_line
           (any_run (Completed 0 ("a/test_x.py" ++ Str.nl ++ "b.md" ++ Str.nl)))
           (World [] [])); reflexivity.
Defined.

(** ** The edit session *)

Lemma collect_lines_until_empty (lines rest acc : list string) :
  (forall line, In line lines -> line <> "") ->
  collect_lines (lines ++ "" :: rest) acc = (inl (acc ++ lines)%list, rest).
Proof.
  revert acc. induction lines as [|x lines IH]; intros acc Hall.
  - cbn. now rewrite app_nil_r.
  - cbn [app collect_lines].
    rewrite (proj2 (truthy_iff x) (Hall x (or_introl eq_refl))).
    rewrite IH by (intros l Hl; apply Hall; now right).
    now rewrite <- app_assoc.
Qed.

Lemma collect_lines_cut_short (lines acc : list string) :
  (forall line, In line lines -> line <> "") ->
  collect_lines lines acc = (inr EOFError, []).
Proof.
  revert acc. induction lines as [|x lines IH]; intros acc Hall; [reflexivity |].
  cbn [collect_lines].
  rewrite (proj2 (truthy_iff x) (Hall x (or_introl eq_refl))).
  apply IH. intros l Hl. apply Hall. now right.
Qed.

Lemma collect_lines_error (pending acc : list string) (e : exn) :
  fst (collect_lines pending acc) = inr e -> e = EOFError.
Proof.
  revert acc. induction pending as [|x pending IH]; intros acc; cbn [collect_lines].
  - now intros [= <-].
  - destruct (Str.truthy x); [apply IH | discriminate].
Qed.

Lemma split_nl_once_line (a : string) :
  Str.contains Str.nl a = false -> Str.split_nl_once a = [a].
Proof.
  induction a as [|c a IH]; [reflexivity |].
  rewrite contains_nl_cons, orb_false_iff. intros [Hc Ha].
  cbn [Str.split_nl_once]. now rewrite Hc, (IH Ha).
Qed.

Lemma split_nl_once_first_line (a b : string) :
  Str.contains Str.nl a = false -> Str.split_nl_once (a ++ Str.nl ++ b) = [a; b].
Proof.
  induction a as [|c a IH].
  - intros _. reflexivity.
  - rewrite contains_nl_cons, orb_false_iff. intros [Hc Ha].
    cbn [append Str.split_nl_once]. rewrite Hc.
    change (a ++ String Str.nl_char b) with (a ++ Str.nl ++ b). now rewrite (IH Ha).
Qed.

(** X10: in an edit session the lines typed up to the first empty line make
    the message: the first line is the title, the lines after it, joined by
    line feeds, are the body (the empty body when there is one line only);
    the suggested title and body are dropped, and the input after the empty
    line is left unread. *)
Theorem X10_edit_session_message (title body answer first : string)
        (more rest : list string) (tr : list event) :
  choice_of answer = "edit" ->
  (forall line, In line (first :: more) -> line <> "") ->
  Str.contains Str.nl first = false ->
  confirm_message title body (World (answer :: first :: more ++ "" :: rest) tr) =
  (inl (first, Str.join Str.nl more),
   World rest (tr ++ presentation title body ++ [edit_invitation])).
Proof.
  intros Hedit Hall Hfirst.
  rewrite confirm_message_run, Hedit. cbv zeta.
  cbn [existsb String.eqb Ascii.eqb Bool.eqb orb].
  change (first :: more ++ "" :: rest) with ((first :: more) ++ "" :: rest)%list.
  rewrite (collect_lines_until_empty _ _ _ Hall). cbn [app].
  rewrite <- app_assoc. f_equal. f_equal.
  destruct more as [|second more'].
  - cbn [Str.join String.concat]. now rewrite (split_nl_once_line _ Hfirst).
  - rewrite join_cons by discriminate.
    now rewrite (split_nl_once_first_line _ _ Hfirst).
Qed.

Lemma X10_edit_session_message_witness :
  confirm_message "docs: update 2 files" "- Modified: a.md"
                  (World [" EDIT"; "fix: typo"; "in the guide"; "and the index"; ""; "y"] []) =
  (inl ("fix: typo", "in the guide" ++ Str.nl ++ "and the index"),
   World ["y"]
         (presentation "docs: update 2 files" "- Modified: a.md" ++ [edit_invitation])).
Proof.
  apply (X10_edit_session_message
           "docs: update 2 files" "- Modified: a.md" " EDIT" "fix: typo"
           ["in the guide"; "and the index"] ["y"] []).
  - reflexivity.
  - intros line [<- | [<- | [<- | []]]]; discriminate.
  - reflexivity.
Defined.

(** ** What the confirmer, the committer and the tool can do *)

Lemma confirm_message_eof (title body : string) (tr : list event) :
  confirm_message title body (World [] tr) =
  (inr EOFError, World [] (tr ++ presentation title body)).
Proof.
  unfold confirm_message, presentation, input, print, bind, emit.
  cbn [stdin trace]. flatten_trace. reflexivity.
Qed.

(** The confirmer runs no command, and leaves with a message, with
    [EOFError] or with [sys.exit(0)]. *)
Lemma confirm_message_outcome (title body : string) (w : world) :
  execs (trace (snd (confirm_message title body w))) = execs (trace w) /\
  ((exists message, fst (confirm_message title body w) = inl message) \/
   fst (confirm_message title body w) = inr EOFError \/
   fst (confirm_message title body w) = inr (SystemExit 0)) /\
  (stdin w = [] -> fst (confirm_message title body w) = inr EOFError).
Proof.
  destruct w as [[|answer rest] tr].
  - rewrite confirm_message_eof. cbn [fst snd trace stdin].
    rewrite execs_app, execs_presentation, app_nil_r. auto.
  - rewrite confirm_message_run. cbv zeta. cbn [stdin].
    destruct (existsb _ _); [| destruct (choice_of answer =? "edit")].
    + cbn [fst snd trace]. rewrite execs_app, execs_presentation, app_nil_r.
      split; [reflexivity | split; [left; eauto | discriminate]].
    + destruct (collect_lines rest []) as [[lines | e] rest'] eqn:E;
        cbn [fst snd trace]; rewrite !execs_app, execs_presentation, !app_nil_r;
        (split; [reflexivity | split; [| discriminate]]).
      * left. eauto.
      * right. left. f_equal.
        apply (collect_lines_error rest []). now rewrite E.
    + cbn [fst snd trace]. rewrite !execs_app, execs_presentation, !app_nil_r.
      split; [reflexivity | split; [auto | discriminate]].
Qed.

(** The committer runs one [git commit -m title ...], and returns or raises
    [FileNotFoundError]. *)
Lemma run_commit_outcome (os_run : list string -> option completed)
      (title body : string) (w : world) :
  (exists extra,
      execs (trace (snd (run_commit os_run title body w))) =
      (execs (trace w) ++ [["git"; "commit"; "-m"; title] ++ extra])%list) /\
  (fst (run_commit os_run title body w) = inl tt \/
   fst (run_commit os_run title body w) = inr FileNotFoundError).
Proof.
  rewrite run_commit_run. cbv zeta.
  destruct (Str.truthy (Str.strip body)); destruct (os_run _);
    cbn [fst snd trace]; rewrite execs_app; cbn [execs]; split; auto;
    solve [now exists ["-m"; body] | now exists []].
Qed.

(** X11: the confirmer itself runs no command, whatever is answered and
    also when the input ends: the commands of the trace are the same before
    and after it. *)
Theorem X11_confirmer_runs_nothing (title body : string) (w : world) :
  execs (trace (snd (confirm_message title body w))) = execs (trace w).
Proof. apply confirm_message_outcome. Qed.

Lemma main_without_git (os_run : list string -> option completed) (w : world) :
  os_run git_diff_argv = None ->
  main os_run w = (inr FileNotFoundError, World (stdin w) (trace w ++ [Exec git_diff_argv])).
Proof.
  intros Hnone. unfold main. unfold bind at 1. now rewrite get_staged_files_run, Hnone.
Qed.

(** Every way the tool can end. *)
Lemma main_outcome (os_run : list string -> option completed) (w : world) :
  (fst (main os_run w) = inl tt \/
   fst (main os_run w) = inr FileNotFoundError \/
   fst (main os_run w) = inr (NameError "f") \/
   fst (main os_run w) = inr EOFError \/
   fst (main os_run w) = inr (SystemExit 0) \/
   fst (main os_run w) = inr (SystemExit 1)) /\
  (execs (trace (snd (main os_run w))) = (execs (trace w) ++ [git_diff_argv])%list \/
   exists title extra,
     execs (trace (snd (main os_run w))) =
     (execs (trace w) ++ [git_diff_argv; ["git"; "commit"; "-m"; title] ++ extra])%list) /\
  (stdin w = [] ->
   execs (trace (snd (main os_run w))) = (execs (trace w) ++ [git_diff_argv])%list /\
   exit_status (fst (main os_run w)) = 1%Z).
Proof.
  destruct (os_run git_diff_argv) as [c|] eqn:Hrun.
  2:{ rewrite (main_without_git os_run w Hrun). cbn [fst snd trace exit_status].
      rewrite execs_app. cbn [execs]. intuition. }
  rewrite (main_run os_run c w Hrun). cbv zeta.
  destruct (staged_of c) as [|file files'] eqn:Hfiles.
  { cbn [fst snd trace exit_status]. rewrite execs_app. cbn [execs]. intuition. }
  destruct (detect_commit_type (file :: files')) as [commit_type | e] eqn:Htype.
  2:{ rewrite detect_commit_type_cases in Htype.
      destruct (forallb is_doc (file :: files')); [discriminate |].
      destruct (existsb has_test_token (file :: files')); [discriminate |].
      injection Htype as <-.
      cbn [fst snd trace exit_status]. rewrite execs_app. cbn [execs]. intuition. }
  set (listed := World (stdin w) (trace w ++ [Exec git_diff_argv])).
  assert (Hlisted : execs (trace listed) = (execs (trace w) ++ [git_diff_argv])%list)
    by (unfold listed; cbn [trace]; now rewrite execs_app).
  destruct (confirm_message_outcome (generate_summary commit_type (file :: files'))
                                    (generate_body (file :: files')) listed)
    as [Hexecs [Hends Heof]].
  destruct (confirm_message _ _ listed) as [[[title body] | e] confirmed].
  - cbn [fst snd] in Hexecs, Hends, Heof.
    destruct (run_commit_outcome os_run title body confirmed) as [[extra Hcmd] Hret].
    rewrite Hexecs, Hlisted, <- app_assoc in Hcmd. cbn [app] in Hcmd.
    split; [| split].
    + destruct Hret as [-> | ->]; auto.
    + right. now exists title, extra.
    + intros Hempty. specialize (Heof Hempty). discriminate Heof.
  - cbn [fst snd] in Hexecs, Hends, Heof |- *. rewrite Hexecs, Hlisted.
    split; [| split].
    + destruct Hends as [[message Hm] | [He | He]]; [discriminate Hm | ..];
        injection He as ->; auto 6.
    + now left.
    + intros Hempty. specialize (Heof Hempty). injection Heof as ->. auto.
Qed.

(** X12: the tool always ends with exit status 0 or 1, and it runs the list
    command and at most one more command, a [git commit -m] with a title. *)
Theorem X12_tool_exit_and_commands (os_run : list string -> option completed) (w : world) :
  (exit_status (fst (main os_run w)) = 0%Z \/ exit_status (fst (main os_run w)) = 1%Z) /\
  (execs (trace (snd (main os_run w))) = (execs (trace w) ++ [git_diff_argv])%list \/
   exists title extra,
     execs (trace (snd (main os_run w))) =
     (execs (trace w) ++ [git_diff_argv; ["git"; "commit"; "-m"; title] ++ extra])%list).
Proof.
  destruct (main_outcome os_run w) as [Hends [Hcmds _]]. split; [| exact Hcmds].
  destruct Hends as [-> | [-> | [-> | [-> | [-> | ->]]]]]; cbn; auto.
Qed.

(** X13: with nothing to read on standard input the tool commits nothing:
    whatever is staged and whatever the system answers, it runs the list
    command only and ends with exit status 1. *)
Theorem X13_no_answer_no_commit (os_run : list string -> option completed)
        (tr : list event) :
  execs (trace (snd (main os_run (World [] tr)))) = (execs tr ++ [git_diff_argv])%list /\
  exit_status (fst (main os_run (World [] tr))) = 1%Z.
Proof. now apply (main_outcome os_run (World [] tr)). Qed.

Lemma main_confirmed (os_run : list string -> option completed)
      (files : list string) (commit_type : string) (w : world) :
  fst (get_staged_files os_run w) = inl files ->
  files <> [] ->
  detect_commit_type files = inl commit_type ->
  main os_run w =
  match confirm_message (generate_summary commit_type files) (generate_body files)
                        (World (stdin w) (trace w ++ [Exec git_diff_argv])) with
  | (inl (title, body), confirmed) => run_commit os_run title body confirmed
  | (inr e, confirmed) => (inr e, confirmed)
  end.
Proof.
  intros Hlisted Hsome Htype. rewrite (main_run_listed os_run files w Hlisted). cbv zeta.
  destruct files; [congruence | now rewrite Htype].
Qed.

(** X14: an edit session that the end of the input cuts short, before any
    empty line, commits nothing: the tool ends with [EOFError], exit status
    1, with the input read to its end and the list command the only command
    run. *)
Theorem X14_unfinished_edit_commits_nothing (os_run : list string -> option completed)
        (files : list string) (commit_type answer : string)
        (typed : list string) (tr : list event) :
  choice_of answer = "edit" ->
  (forall line, In line typed -> line <> "") ->
  fst (get_staged_files os_run (World (answer :: typed) tr)) = inl files ->
  files <> [] ->
  detect_commit_type files = inl commit_type ->
  fst (main os_run (World (answer :: typed) tr)) = inr EOFError /\
  exit_status (fst (main os_run (World (answer :: typed) tr))) = 1%Z /\
  stdin (snd (main os_run (World (answer :: typed) tr))) = [] /\
  execs (trace (snd (main os_run (World (answer :: typed) tr)))) =
  (execs tr ++ [git_diff_argv])%list.
Proof.
  intros Hedit Htyped Hlisted Hsome Htype.
  rewrite (main_confirmed os_run files commit_type _ Hlisted Hsome Htype).
  cbn [stdin trace]. rewrite confirm_message_run, Hedit. cbv zeta.
  cbn [existsb String.eqb Ascii.eqb Bool.eqb orb].
  rewrite (collect_lines_cut_short typed [] Htyped).
  cbn [fst snd stdin trace exit_status].
  rewrite !execs_app, execs_presentation. cbn [execs]. now rewrite !app_nil_r.
Qed.

Lemma X14_unfinished_edit_commits_nothing_witness :
  fst (main (any_run (Completed 0 "README.md")) (World ["edit"; "docs: intro"; "more"] [])) =
  inr EOFError.
Proof.
  refine (proj1 (X14_unfinished_edit_commits_nothing
                   (any_run (Completed 0 "README.md")) ["README.md"] "docs" "edit"
                   ["docs: intro"; "more"] [] _ _ _ _ _)).
  - reflexivity.
  - intros line [<- | [<- | []]]; discriminate.
  - reflexivity.
  - discriminate.
  - reflexivity.
Defined.

(** X15: a commit that fails does not fail the tool: when the answer
    accepts the suggestion and the commit command completes with a status
    other than 0, the tool prints the failure notice last, returns, and the
    process exits with status 0. *)
Theorem X15_failed_commit_exits_0 (os_run : list string -> option completed)
        (files : list string) (commit_type answer : string)
        (rest : list string) (tr : list event) (c : completed) :
  In (choice_of answer) [""; "y"; "yes"] ->
  fst (get_staged_files os_run (World (answer :: rest) tr)) = inl files ->
  files <> [] ->
  detect_commit_type files = inl commit_type ->
  os_run ["git"; "commit"; "-m"; generate_summary commit_type files;
          "-m"; generate_body files] = Some c ->
  returncode c <> 0%Z ->
  main os_run (World (answer :: rest) tr) =
  (inl tt,
   World rest
         (tr ++ Exec git_diff_argv
             :: presentation (generate_summary commit_type files) (generate_body files)
             ++ [Exec ["git"; "commit"; "-m"; generate_summary commit_type files;
                       "-m"; generate_body files];
                 Print notice_failed])) /\
  exit_status (fst (main os_run (World (answer :: rest) tr))) = 0%Z.
Proof.
  intros Hyes Hlisted Hsome Htype Hrun Hfailed.
  assert (Hmain : main os_run (World (answer :: rest) tr) =
                  (inl tt,
                   World rest
                         (tr ++ Exec git_diff_argv
                             :: presentation (generate_summary commit_type files)
                                             (generate_body files)
                             ++ [Exec ["git"; "commit"; "-m";
                                       generate_summary commit_type files;
                                       "-m"; generate_body files];
                                 Print notice_failed]))).
  { rewrite (main_confirmed os_run files commit_type _ Hlisted Hsome Htype).
    cbn [stdin trace]. rewrite (confirm_message_accept _ _ _ _ _ Hyes).
    rewrite run_commit_run, (generate_body_not_blank files Hsome). cbv zeta.
    rewrite Hrun. apply Z.eqb_neq in Hfailed. rewrite Hfailed.
    cbn [stdin trace]. now rewrite <- !app_assoc. }
  split; [exact Hmain | now rewrite Hmain].
Qed.

Lemma X15_failed_commit_exits_0_witness :
  exit_status (fst (main (fun argv => if list_eq_dec string_dec argv git_diff_argv
                                      then Some (Completed 0 "README.md")
                                      else Some (Completed 1 ""))
                         (World ["y"] []))) = 0%Z.
Proof.
  refine (proj2 (X15_failed_commit_exits_0 _ ["README.md"] "docs" "y" [] []
                                           (Completed 1 "") _ _ _ _ _ _)).
  - cbn. tauto.
  - reflexivity.
  - discriminate.
  - reflexivity.
  - reflexivity.
  - discriminate.
Defined.
